(** * ModelFramework

    A shallow embedding of [aidd_codebase/framework/framework.py]: the
    [ModelFramework] class, a configuration-driven orchestration layer over a
    training-framework base class.  The host ecosystem (model classes, loss
    classes, optimizers, schedulers, loggers, the base class itself) is not
    part of the file; it enters the development as the fields of the classes
    [Host] and [HostOps], and every statement below holds for all of them. *)

From Stdlib Require Import ZArith.
From stdpp Require Import base option list strings gmap.

Open Scope string_scope.
Open Scope list_scope.

(** ** Exceptions and results *)

(** The exceptions the methods of the file can end with.  [Raised] stands for
    whatever an external call raises. *)
Inductive exn : Type :=
| AttributeError (type_name attr : string)
| KeyError (key : string)
| TypeError (attr : string)
| Raised (what : string).

#[global] Instance exn_eq_dec : EqDecision exn.
Proof. solve_decision. Defined.

(** A Python expression either raises or yields a value. *)
Definition res (A : Type) : Type := (exn + A)%type.

#[global] Instance res_ret : MRet res := fun A a => inr a.

#[global] Instance res_bind : MBind res := fun A B k r =>
  match r with
  | inl e => inl e
  | inr a => k a
  end.

(** ** Keys of a per-stage metric dictionary

    [_init_metrics] builds its keys with
    [(loss_key, *self.metrics) if self.metrics else loss_key]: a key is either
    a string or a tuple of strings. *)
Inductive mkey : Type :=
| KStr (s : string)
| KTuple (items : list string).

#[global] Instance mkey_eq_dec : EqDecision mkey.
Proof. solve_decision. Defined.

Definition mkey_to_sum (k : mkey) : string + list string :=
  match k with
  | KStr s => inl s
  | KTuple t => inr t
  end.

Definition mkey_of_sum (x : string + list string) : mkey :=
  match x with
  | inl s => KStr s
  | inr t => KTuple t
  end.

#[global] Instance mkey_countable : Countable mkey.
Proof.
  apply (inj_countable' mkey_to_sum mkey_of_sum).
  intros [s | t]; reflexivity.
Defined.

(** ** [get_loss_key] (a static method) *)
Definition get_loss_key (stage : string) : string :=
  if decide (stage = "train") then "loss"
  else if decide (stage = "validation") then "val_loss"
  else "test_loss".

(** A [Metric] object is a reference into the heap of the world. *)
Abbreviation loc := nat.

(** ** The host ecosystem

    Objects of classes defined outside the file are opaque: a model class, a
    constructed model, an optimizer and so on are values of the abstract types
    below, and the file only passes them around. *)
Class Host : Type := {
  ModelCls : Type;
  ModelArgs : Type;
  Model : Type;
  ParamIter : Type;
  LossCls : Type;
  LossFn : Type;
  OptimizerCls : Type;
  Optimizer : Type;
  Scheduler : Type;
  Logger : Type;
  MetricObj : Type;
  Callable : Type;
  Batch : Type;
  PyArg : Type;
  PyRet : Type;
}.

Section Framework.
Context `{H : Host}.

(** The values an attribute of the framework can hold where the file does
    not fix a class: [None], a string, or an object of the host. *)
Inductive pyval : Type :=
| VNone
| VStr (s : string)
| VScheduler (o : Scheduler)
| VLogger (o : Logger).

(** [type(v).__name__], as an [AttributeError] reports it. *)
Definition type_name (v : pyval) : string :=
  match v with
  | VNone => "NoneType"
  | VStr _ => "str"
  | VScheduler _ => "Scheduler"
  | VLogger _ => "LoggerPL"
  end.

(** [self.loss = LogitLoss(...)]: the wrapper keeps the loss it was given. *)
Inductive Loss : Type :=
| LogitLoss (inner : LossFn).

(** A float literal of the source, [mantissa * 10 ^ exponent10]. *)
Record float_lit : Type := FloatLit { mantissa : Z; exponent10 : Z }.

(** The keyword arguments [__init__] gives the optimizer class. *)
Record optimizer_kwargs : Type := OptimizerKwargs {
  lr : float_lit;
  betas : float_lit * float_lit;
  eps : float_lit;
}.

(** [*args, **kwargs] of a call. *)
Record call_args : Type := CallArgs {
  positional : list PyArg;
  keywords : list (string * PyArg);
}.

(** The arguments of [ModelFramework.__init__].  The source annotates
    [scheduler] as [Optional[str]] and [pl_loggers] as
    [Optional[List[str]]]; Python does not enforce an annotation, so both are
    values here. *)
Record init_args : Type := InitArgs {
  arg_model : string;
  arg_model_args : ModelArgs;
  arg_loss : string;
  arg_optimizer : string;
  arg_metrics : option (list string);
  arg_scheduler : pyval;
  arg_pl_loggers : option (list pyval);
  arg_initialize_model : option string;
}.

(** The attributes of a [ModelFramework] object.  An attribute that is only
    created by a later assignment is an [option]: [None] is "no such
    attribute". *)
Record ModelFramework : Type := Build_ModelFramework {
  hparams : init_args;
  model : Model;
  loss : Loss;
  metrics : option (list string);
  optimizer : Optimizer;
  scheduler : pyval;
  pl_loggers : option (list pyval);
  metrics_list : gmap string (gmap mkey loc);
  training_step_imported : option Callable;
  validation_step_imported : option Callable;
  test_step_imported : option Callable;
}.

(** Calls into objects of the host that the file makes on a scheduler or a
    logging sink, in the order they happen. *)
Inductive event : Type :=
| EvSetOptimizer (o : Scheduler) (opt : Optimizer)
| EvSchedulerStep (o : Scheduler)
| EvLogScalar (l : Logger) (metrics : gmap mkey loc) (epoch : Z).

(** The world a method runs in: the framework object, the [Metric] objects
    allocated so far, the base class's [current_epoch] and the calls made. *)
Record World : Type := Build_World {
  self : ModelFramework;
  heap : list MetricObj;
  current_epoch : Z;
  trace : list event;
}.

Definition with_self (f : ModelFramework -> ModelFramework) (w : World) : World :=
  Build_World (f (self w)) (heap w) (current_epoch w) (trace w).

Definition with_heap (f : list MetricObj -> list MetricObj) (w : World) : World :=
  Build_World (self w) (f (heap w)) (current_epoch w) (trace w).

Definition with_trace (f : list event -> list event) (w : World) : World :=
  Build_World (self w) (heap w) (current_epoch w) (f (trace w)).

(** ** The monad of methods: state and exceptions

    A method body maps a world to a result and the world it leaves; what was
    done before an exception stays done. *)
Definition M (A : Type) : Type := World -> res A * World.

#[global] Instance M_ret : MRet M := fun A a w => (inr a, w).

#[global] Instance M_bind : MBind M := fun A B k m w =>
  match m w with
  | (inl e, w') => (inl e, w')
  | (inr a, w') => k a w'
  end.

Definition raise {A : Type} (e : exn) : M A := fun w => (inl e, w).

Definition gets {A : Type} (f : World -> A) : M A := fun w => (inr (f w), w).

Definition modify (f : World -> World) : M unit := fun w => (inr tt, f w).

Definition lift {A : Type} (r : res A) : M A := fun w => (r, w).

Definition emit (e : event) : M unit := modify (with_trace (fun t => t ++ [e])).

(** What the host does when the file calls into it.  A registry lookup, a
    constructor or a method of a host object may raise, and so may the base
    class's constructor and its [save_hyperparameters], which copies every
    argument of [__init__]; the three callbacks that receive the framework
    object itself (the injected loop, the model's forward call and the base
    class's [optimizer_step]) may do anything to the world.
    [Callable_is_module] tells whether a callable is itself a
    [torch.nn.Module], which the base class's attribute assignment treats
    apart. *)
Class HostOps : Type := {
  LightningModule_init : res unit;
  save_hyperparameters : init_args -> res unit;
  Callable_is_module : Callable -> bool;
  ModelChoice_get_choice : string -> res ModelCls;
  ModelCls_call : ModelCls -> ModelArgs -> res Model;
  ParameterInitialization_initialize_model : string -> Model -> res Model;
  Model_parameters : Model -> res ParamIter;
  LossChoice_get_choice : string -> res LossCls;
  LossCls_call : LossCls -> string -> Z -> res LossFn;
  OptimizerChoice_get_choice : string -> res OptimizerCls;
  OptimizerCls_call : OptimizerCls -> ParamIter -> optimizer_kwargs -> res Optimizer;
  Metric_init : MetricObj;
  Scheduler_truthy : Scheduler -> bool;
  Scheduler_set_optimizer : Scheduler -> Optimizer -> res pyval;
  Scheduler_step : Scheduler -> res unit;
  Logger_log_scalar : Logger -> gmap mkey loc -> Z -> res unit;
  Callable_call : Callable -> Batch -> Z -> string -> M PyRet;
  Model_call : Model -> call_args -> M PyRet;
  super_optimizer_step : call_args -> M unit;
}.

Context {O : HostOps}.

(** ** Truth values *)

(** [bool(v)]: [None] and the empty string are false. *)
Definition truthy (v : pyval) : bool :=
  match v with
  | VNone => false
  | VStr s => bool_decide (s <> "")
  | VScheduler o => Scheduler_truthy o
  | VLogger _ => true
  end.

(** [bool(x)] for an [Optional[str]]. *)
Definition truthy_opt_str (x : option string) : bool :=
  match x with
  | None => false
  | Some s => bool_decide (s <> "")
  end.

(** [bool(x)] for an [Optional[List[...]]]. *)
Definition truthy_opt_list {A : Type} (x : option (list A)) : bool :=
  match x with
  | None | Some [] => false
  | Some (_ :: _) => true
  end.

(** ** [ModelFramework.__init__] *)
Definition __init__ (a : init_args) : res ModelFramework :=
  LightningModule_init;;
  (* saving parameters *)
  save_hyperparameters a;;
  (* Set Model *)
  cls ← ModelChoice_get_choice (arg_model a);
  m ← ModelCls_call cls (arg_model_args a);
  m ← (if truthy_opt_str (arg_initialize_model a)
       then ParameterInitialization_initialize_model
              (default "" (arg_initialize_model a)) m
       else mret m);
  (* setting parameters *)
  lcls ← LossChoice_get_choice (arg_loss a);
  lfn ← LossCls_call lcls "mean" 0%Z;
  ocls ← OptimizerChoice_get_choice (arg_optimizer a);
  ps ← Model_parameters m;
  opt ← OptimizerCls_call ocls ps
          (OptimizerKwargs (FloatLit 1 (-4))
                           (FloatLit 9 (-1), FloatLit 98 (-2))
                           (FloatLit 1 (-9)));
  mret (Build_ModelFramework a m (LogitLoss lfn) (arg_metrics a) opt
          (arg_scheduler a) (arg_pl_loggers a) ∅ None None None).

(** ** Attribute assignment *)

Definition assign_model (m : Model) (s : ModelFramework) : ModelFramework :=
  Build_ModelFramework (hparams s) m (loss s) (metrics s) (optimizer s)
    (scheduler s) (pl_loggers s) (metrics_list s)
    (training_step_imported s) (validation_step_imported s)
    (test_step_imported s).

Definition assign_scheduler (v : pyval) (s : ModelFramework) : ModelFramework :=
  Build_ModelFramework (hparams s) (model s) (loss s) (metrics s) (optimizer s)
    v (pl_loggers s) (metrics_list s)
    (training_step_imported s) (validation_step_imported s)
    (test_step_imported s).

Definition assign_metrics_list (ml : gmap string (gmap mkey loc))
    (s : ModelFramework) : ModelFramework :=
  Build_ModelFramework (hparams s) (model s) (loss s) (metrics s) (optimizer s)
    (scheduler s) (pl_loggers s) ml
    (training_step_imported s) (validation_step_imported s)
    (test_step_imported s).

Definition assign_training_step_imported (f : Callable)
    (s : ModelFramework) : ModelFramework :=
  Build_ModelFramework (hparams s) (model s) (loss s) (metrics s) (optimizer s)
    (scheduler s) (pl_loggers s) (metrics_list s)
    (Some f) (validation_step_imported s) (test_step_imported s).

Definition assign_validation_step_imported (f : Callable)
    (s : ModelFramework) : ModelFramework :=
  Build_ModelFramework (hparams s) (model s) (loss s) (metrics s) (optimizer s)
    (scheduler s) (pl_loggers s) (metrics_list s)
    (training_step_imported s) (Some f) (test_step_imported s).

Definition assign_test_step_imported (f : Callable)
    (s : ModelFramework) : ModelFramework :=
  Build_ModelFramework (hparams s) (model s) (loss s) (metrics s) (optimizer s)
    (scheduler s) (pl_loggers s) (metrics_list s)
    (training_step_imported s) (validation_step_imported s) (Some f).

(** [self.<name>] for an attribute that may not exist yet. *)
Definition getattr {A : Type} (name : string)
    (field : ModelFramework -> option A) : M A :=
  o ← gets (fun w => field (self w));
  match o with
  | Some x => mret x
  | None => raise (AttributeError "ModelFramework" name)
  end.

(** ** Method calls on a value *)

(** [v.set_optimizer(optimizer)] *)
Definition call_set_optimizer (v : pyval) (opt : Optimizer) : M pyval :=
  match v with
  | VScheduler o => emit (EvSetOptimizer o opt);; lift (Scheduler_set_optimizer o opt)
  | _ => raise (AttributeError (type_name v) "set_optimizer")
  end.

(** [v.step()] *)
Definition call_step (v : pyval) : M unit :=
  match v with
  | VScheduler o => emit (EvSchedulerStep o);; lift (Scheduler_step o)
  | _ => raise (AttributeError (type_name v) "step")
  end.

(** [v.log_scalar(metrics=metrics, epoch=epoch)] *)
Definition call_log_scalar (v : pyval) (ms : gmap mkey loc) (epoch : Z) : M unit :=
  match v with
  | VLogger l => emit (EvLogScalar l ms epoch);; lift (Logger_log_scalar l ms epoch)
  | _ => raise (AttributeError (type_name v) "log_scalar")
  end.

(** ** The methods of [ModelFramework] *)

Definition set_model (m : Model) : M unit :=
  modify (with_self (assign_model m)).

(** [self.<name> = loop] for one of the loop attributes.  The object is a
    [torch.nn.Module]: once a name holds a child module, assigning it
    anything but a module (or [None]) raises [TypeError]; otherwise the
    attribute is created or replaced. *)
Definition setattr_loop (name : string)
    (field : ModelFramework -> option Callable)
    (assign : Callable -> ModelFramework -> ModelFramework)
    (loop : Callable) : M unit :=
  current ← gets (fun w => field (self w));
  match current with
  | Some old =>
      if Callable_is_module old && negb (Callable_is_module loop)
      then raise (TypeError name)
      else modify (with_self (assign loop))
  | None => modify (with_self (assign loop))
  end.

Definition set_loop (loop : Callable) : M unit :=
  setattr_loop "training_step_imported" training_step_imported
    assign_training_step_imported loop;;
  setattr_loop "validation_step_imported" validation_step_imported
    assign_validation_step_imported loop;;
  setattr_loop "test_step_imported" test_step_imported
    assign_test_step_imported loop.

(** The injected callable is called with the framework object first; that
    object is the [self] of the world the call runs in. *)
Definition training_step (batch : Batch) (batch_idx : Z) : M PyRet :=
  f ← getattr "training_step_imported" training_step_imported;
  Callable_call f batch batch_idx "train".

Definition validation_step (batch : Batch) (batch_idx : Z) : M PyRet :=
  f ← getattr "validation_step_imported" validation_step_imported;
  Callable_call f batch batch_idx "validation".

Definition test_step (batch : Batch) (batch_idx : Z) : M PyRet :=
  f ← getattr "test_step_imported" test_step_imported;
  Callable_call f batch batch_idx "test".

Definition forward (args : call_args) : M PyRet :=
  m ← gets (fun w => model (self w));
  Model_call m args.

Definition optimizer_step (args : call_args) : M unit :=
  super_optimizer_step args;;
  c ← gets (fun w => scheduler (self w));
  if truthy c then
    s ← gets (fun w => scheduler (self w));
    call_step s
  else mret tt.

Definition configure_optimizers : M Optimizer :=
  optimizer ← gets (fun w => optimizer (self w));
  c ← gets (fun w => scheduler (self w));
  (if truthy c then
     s ← gets (fun w => scheduler (self w));
     s' ← call_set_optimizer s optimizer;
     modify (with_self (assign_scheduler s'))
   else mret tt);;
  mret optimizer.

(** [Metric()]: a new object, at an address no object had before. *)
Definition Metric : M loc :=
  l ← gets (fun w => length (heap w));
  modify (with_heap (fun h => h ++ [Metric_init]));;
  mret l.

(** [{k: Metric() for k in keys}], the comprehension run key by key. *)
Fixpoint metric_dict (keys : list mkey) (d : gmap mkey loc) : M (gmap mkey loc) :=
  match keys with
  | [] => mret d
  | k :: keys' => v ← Metric; metric_dict keys' (<[k := v]> d)
  end.

(** [(loss_key, *self.metrics) if self.metrics else loss_key] *)
Definition metrics_key (loss_key : string) (ms : option (list string)) : mkey :=
  if truthy_opt_list ms then KTuple (loss_key :: default [] ms)
  else KStr loss_key.

Definition _init_metrics (stage : string) : M unit :=
  let loss_key := get_loss_key stage in
  ms ← gets (fun w => metrics (self w));
  d ← metric_dict [metrics_key loss_key ms] ∅;
  modify (with_self (fun s => assign_metrics_list (<[stage := d]> (metrics_list s)) s)).

Fixpoint for_each {A : Type} (body : A -> M unit) (l : list A) : M unit :=
  match l with
  | [] => mret tt
  | x :: l' => body x;; for_each body l'
  end.

Definition _log_epoch_metrics (ms : gmap mkey loc) : M unit :=
  ls ← gets (fun w => pl_loggers (self w));
  if truthy_opt_list ls then
    for_each (fun logger =>
                epoch ← gets current_epoch;
                call_log_scalar logger ms epoch)
             (default [] ls)
  else mret tt.

Definition on_train_start : M unit := _init_metrics "train".

Definition on_training_epoch_start : M unit := _init_metrics "train".

Definition on_validation_epoch_start : M unit := _init_metrics "validation".

Definition on_test_epoch_start : M unit := _init_metrics "test".

(** [self.metrics_list[stage]] *)
Definition metrics_list_getitem (stage : string) : M (gmap mkey loc) :=
  ml ← gets (fun w => metrics_list (self w));
  match ml !! stage with
  | Some d => mret d
  | None => raise (KeyError stage)
  end.

Definition training_epoch_end (outputs : list PyRet) : M unit :=
  d ← metrics_list_getitem "train";
  _log_epoch_metrics d.

Definition validation_epoch_end (outputs : list PyRet) : M unit :=
  d ← metrics_list_getitem "validation";
  _log_epoch_metrics d.

Definition test_epoch_end (outputs : list PyRet) : M unit :=
  d ← metrics_list_getitem "test";
  _log_epoch_metrics d.

(** ** Vocabulary of the statements *)

(** The key [_init_metrics] files the stage's [Metric] under, read off
    [self.metrics]. *)
Definition stage_key (stage : string) (ms : option (list string)) : mkey :=
  match ms with
  | None | Some [] => KStr (get_loss_key stage)
  | Some (name :: names) => KTuple (get_loss_key stage :: name :: names)
  end.

(** An object that did not exist in [w] and is a newly built [Metric] in [w']. *)
Definition fresh_metric (w w' : World) (l : loc) : Prop :=
  heap w !! l = None /\ heap w' !! l = Some Metric_init.

(** [hook] is [_init_metrics(stage)]: it returns normally, the entry of
    [stage] is a non-empty dictionary of fresh [Metric] objects, and the
    entry of every other stage is what it was. *)
Definition resets_stage (stage : string) (hook : M unit) (w : World) : Prop :=
  hook w = _init_metrics stage w /\
  exists (w' : World) (d : gmap mkey loc),
    hook w = (inr tt, w') /\
    metrics_list (self w') !! stage = Some d /\
    d <> ∅ /\
    (forall k l, d !! k = Some l -> fresh_metric w w' l) /\
    (forall other, other <> stage ->
       metrics_list (self w') !! other = metrics_list (self w) !! other).

(** The three objects [__init__] obtains by looking a name up in a registry
    and calling the class found there. *)
Definition resolved (a : init_args) (s : ModelFramework) : Prop :=
  exists (cls : ModelCls) (m0 : Model) (lcls : LossCls) (lfn : LossFn)
         (ocls : OptimizerCls) (ps : ParamIter),
    ModelChoice_get_choice (arg_model a) = inr cls /\
    ModelCls_call cls (arg_model_args a) = inr m0 /\
    (if truthy_opt_str (arg_initialize_model a)
     then ParameterInitialization_initialize_model
            (default "" (arg_initialize_model a)) m0
     else inr m0) = inr (model s) /\
    LossChoice_get_choice (arg_loss a) = inr lcls /\
    LossCls_call lcls "mean" 0%Z = inr lfn /\
    loss s = LogitLoss lfn /\
    OptimizerChoice_get_choice (arg_optimizer a) = inr ocls /\
    Model_parameters (model s) = inr ps /\
    OptimizerCls_call ocls ps
      (OptimizerKwargs (FloatLit 1 (-4)) (FloatLit 9 (-1), FloatLit 98 (-2))
         (FloatLit 1 (-9))) = inr (optimizer s).

(** The attributes [__init__] copies from its arguments or sets to a
    constant. *)
Definition copied (a : init_args) (s : ModelFramework) : Prop :=
  hparams s = a /\
  metrics s = arg_metrics a /\
  scheduler s = arg_scheduler a /\
  pl_loggers s = arg_pl_loggers a /\
  metrics_list s = ∅ /\
  training_step_imported s = None /\
  validation_step_imported s = None /\
  test_step_imported s = None.

(** The three attributes [set_loop] creates. *)
Definition loops (s : ModelFramework) :
    option Callable * option Callable * option Callable :=
  (training_step_imported s, validation_step_imported s, test_step_imported s).

(** [m] neither creates nor changes them. *)
Definition keeps_loops {A : Type} (m : M A) : Prop :=
  forall w : World, loops (self (snd (m w))) = loops (self w).

(** The methods whose whole effect the file determines, [set_loop] apart. *)
Inductive call : Type :=
| CallSetModel (m : Model)
| CallConfigureOptimizers
| CallInitMetrics (stage : string)
| CallLogEpochMetrics (ms : gmap mkey loc)
| CallOnTrainStart
| CallOnTrainingEpochStart
| CallOnValidationEpochStart
| CallOnTestEpochStart
| CallTrainingEpochEnd (outputs : list PyRet)
| CallValidationEpochEnd (outputs : list PyRet)
| CallTestEpochEnd (outputs : list PyRet).

(** The world a method leaves, whether it returned or raised. *)
Definition after {A : Type} (m : M A) (w : World) : World := snd (m w).

Definition run_call (c : call) : World -> World :=
  match c with
  | CallSetModel m => after (set_model m)
  | CallConfigureOptimizers => after configure_optimizers
  | CallInitMetrics stage => after (_init_metrics stage)
  | CallLogEpochMetrics ms => after (_log_epoch_metrics ms)
  | CallOnTrainStart => after on_train_start
  | CallOnTrainingEpochStart => after on_training_epoch_start
  | CallOnValidationEpochStart => after on_validation_epoch_start
  | CallOnTestEpochStart => after on_test_epoch_start
  | CallTrainingEpochEnd outputs => after (training_epoch_end outputs)
  | CallValidationEpochEnd outputs => after (validation_epoch_end outputs)
  | CallTestEpochEnd outputs => after (test_epoch_end outputs)
  end.

Definition run_calls (cs : list call) (w : World) : World :=
  foldl (fun w c => run_call c w) w cs.

End Framework.

(** ** A concrete host

    A small host to run the methods on: classes and objects are their names,
    every registry knows one name, and no external call raises. *)
Module Demo.

#[export] Instance host : Host := {|
  ModelCls := string;
  ModelArgs := Z;
  Model := string * Z;
  ParamIter := list Z;
  LossCls := string;
  LossFn := string * string * Z;
  OptimizerCls := string;
  Optimizer := string * list Z;
  Scheduler := nat;
  Logger := string;
  MetricObj := list Z;
  Callable := string;
  Batch := list Z;
  PyArg := Z;
  PyRet := Z;
|}.

Definition lookup_one {A : Type} (known : string) (found : A) (name : string) :
    res A :=
  if decide (name = known) then inr found else inl (KeyError name).

#[export] Instance ops : HostOps := {|
  LightningModule_init := inr tt;
  save_hyperparameters := fun a => inr tt;
  Callable_is_module := fun f => bool_decide (f = "LoopModule");
  ModelChoice_get_choice := lookup_one "seq2seq" "Seq2Seq";
  ModelCls_call := fun cls args => inr (cls, args);
  ParameterInitialization_initialize_model := fun method m => inr m;
  Model_parameters := fun m => inr [snd m];
  LossChoice_get_choice := lookup_one "ce_loss" "CrossEntropyLoss";
  LossCls_call := fun cls reduction ignore_index => inr (cls, reduction, ignore_index);
  OptimizerChoice_get_choice := lookup_one "adam" "Adam";
  OptimizerCls_call := fun cls ps kwargs => inr (cls, ps);
  Metric_init := [];
  Scheduler_truthy := fun o => true;
  Scheduler_set_optimizer := fun o opt => inr (VScheduler o);
  Scheduler_step := fun o => inr tt;
  Logger_log_scalar := fun l ms epoch => inr tt;
  Callable_call := fun f batch batch_idx stage =>
    mret (batch_idx + Z.of_nat (String.length stage))%Z;
  Model_call := fun m args => mret (foldr Z.add (snd m) (positional args));
  super_optimizer_step := fun args => mret tt;
|}.

(** [ModelFramework("seq2seq", 7, "ce_loss", "adam", scheduler="noam",
    pl_loggers=["tensorboard"])] *)
Definition args : init_args :=
  InitArgs "seq2seq" 7%Z "ce_loss" "adam" None (VStr "noam")
    (Some [VStr "tensorboard"]) None.

Definition built : ModelFramework :=
  Build_ModelFramework args ("Seq2Seq", 7%Z)
    (LogitLoss ("CrossEntropyLoss", "mean", 0%Z)) None ("Adam", [7%Z])
    (VStr "noam") (Some [VStr "tensorboard"]) ∅ None None None.

Definition world : World := Build_World built [] 0%Z [].

(** The same object with a scheduler object and two sink objects put in its
    attributes. *)
Definition wired : ModelFramework :=
  Build_ModelFramework args ("Seq2Seq", 7%Z)
    (LogitLoss ("CrossEntropyLoss", "mean", 0%Z)) (Some ["accuracy"; "f1"])
    ("Adam", [7%Z]) (VScheduler 4000) (Some [VLogger "tb"; VLogger "csv"]) ∅
    None None None.

Definition wired_world : World := Build_World wired [] 3%Z [].

Definition other_model : Model := ("Seq2Seq", 1%Z).

Definition loop : Callable := "loop".

Definition calls : list call := [CallOnTrainStart; CallSetModel other_model].

End Demo.

(** ** Footprints and invariants

    What a method may touch, stated once for all relations on worlds: the
    five ways a method of [call] changes the world, the steps each call is
    made of, and what it means for a relation to admit a step. *)
Section Footprints.
Context `{H : Host} {O : HostOps}.

(** [m] relates every world to the one it leaves. *)
Definition preserves {A : Type} (R : World -> World -> Prop) (m : M A) : Prop :=
  forall w : World, R w (snd (m w)).

Inductive prim : Type :=
| PModel
| PScheduler
| PHeap
| PMetricsList (stage : string)
| PTrace.

(** The assignments and calls a method of [call] is made of. *)
Definition effects (c : call) : list prim :=
  match c with
  | CallSetModel _ => [PModel]
  | CallConfigureOptimizers => [PTrace; PScheduler]
  | CallInitMetrics stage => [PHeap; PMetricsList stage]
  | CallOnTrainStart | CallOnTrainingEpochStart => [PHeap; PMetricsList "train"]
  | CallOnValidationEpochStart => [PHeap; PMetricsList "validation"]
  | CallOnTestEpochStart => [PHeap; PMetricsList "test"]
  | CallLogEpochMetrics _ => [PTrace]
  | CallTrainingEpochEnd _ | CallValidationEpochEnd _ | CallTestEpochEnd _ =>
      [PTrace]
  end.

(** [R] holds across every step of the kind [p]. *)
Definition admits (R : World -> World -> Prop) (p : prim) : Prop :=
  match p with
  | PModel => forall w m, R w (with_self (assign_model m) w)
  | PScheduler => forall w v, R w (with_self (assign_scheduler v) w)
  | PHeap => forall w, R w (with_heap (fun h => h ++ [Metric_init]) w)
  | PMetricsList stage =>
      forall w d,
        R w (with_self
               (fun s => assign_metrics_list (<[stage := d]> (metrics_list s)) s)
               w)
  | PTrace => forall w e, R w (with_trace (fun t => t ++ [e]) w)
  end.

(** The attributes no method of [call] assigns. *)
Definition same_config (s s' : ModelFramework) : Prop :=
  hparams s' = hparams s /\
  loss s' = loss s /\
  metrics s' = metrics s /\
  optimizer s' = optimizer s /\
  pl_loggers s' = pl_loggers s /\
  loops s' = loops s.

(** [w'] is [w] with the configuration kept, the epoch kept, and objects and
    calls only added at the end. *)
Definition grows (w w' : World) : Prop :=
  same_config (self w) (self w') /\
  current_epoch w' = current_epoch w /\
  heap w `prefix_of` heap w' /\
  trace w `prefix_of` trace w'.

(** The part [f] of the world is the same in [w'] as in [w]. *)
Definition unchanged {X : Type} (f : World -> X) (w w' : World) : Prop :=
  f w' = f w.

(** Every entry of [metrics_list] is a dictionary with the one key of its
    stage, whose [Metric] is an object of the heap still in the state
    [Metric()] built it in; no [Metric] is filed under two stages. *)
Definition metrics_well_formed (w : World) : Prop :=
  (forall stage d,
     metrics_list (self w) !! stage = Some d ->
     exists l : loc,
       d = {[ stage_key stage (metrics (self w)) := l ]} /\
       heap w !! l = Some Metric_init) /\
  (forall stage1 stage2 d1 d2 k1 k2 (l : loc),
     metrics_list (self w) !! stage1 = Some d1 -> d1 !! k1 = Some l ->
     metrics_list (self w) !! stage2 = Some d2 -> d2 !! k2 = Some l ->
     stage1 = stage2).

(** Between two worlds with the same [metrics_list] and [metrics] and a heap
    that only grew, the entries stay well formed. *)
Definition entries_kept (w w' : World) : Prop :=
  metrics_list (self w') = metrics_list (self w) /\
  metrics (self w') = metrics (self w) /\
  heap w `prefix_of` heap w'.

(** The dictionary [_init_metrics(stage)] builds when it runs in [w]: the
    key of the stage and the [Metric] it allocates. *)
Definition stage_entry (stage : string) (w : World) : gmap mkey loc :=
  {[ stage_key stage (metrics (self w)) := length (heap w) ]}.

(** [log_scalar] returns on every sink of [ls]. *)
Definition sinks_accept (ms : gmap mkey loc) (epoch : Z) (ls : list Logger) :
    Prop :=
  Forall (fun l => Logger_log_scalar l ms epoch = inr tt) ls.

(** The [log_scalar] call on sink [l]. *)
Definition log_event (ms : gmap mkey loc) (epoch : Z) (l : Logger) : event :=
  EvLogScalar l ms epoch.

(** What calling [log_scalar] on the value [v] ends with. *)
Definition log_scalar_outcome (ms : gmap mkey loc) (epoch : Z) (v : pyval) :
    res unit :=
  match v with
  | VLogger l => Logger_log_scalar l ms epoch
  | _ => inl (AttributeError (type_name v) "log_scalar")
  end.

(** The call [log_scalar] on the value [v] leaves in the trace: one on a
    logger object, none on anything else. *)
Definition log_scalar_calls (ms : gmap mkey loc) (epoch : Z) (v : pyval) :
    list event :=
  match v with
  | VLogger l => [log_event ms epoch l]
  | _ => []
  end.

End Footprints.

(** ** A host with faults

    The concrete host again, with a scheduler whose [set_optimizer] raises
    (0), one whose [set_optimizer] returns [None] (1), one whose [step]
    raises (2), one that [save_hyperparameters] cannot copy (9), a sink that
    is down, and a base class whose [optimizer_step] raises when it is given
    a positional argument. *)
Module Faulty.

#[local] Existing Instance Demo.host.

Definition ops : @HostOps Demo.host := {|
  LightningModule_init := inr tt;
  save_hyperparameters := fun a =>
    match arg_scheduler a with
    | VScheduler 9 => inl (Raised "cannot copy the scheduler")
    | _ => inr tt
    end;
  Callable_is_module := fun f => bool_decide (f = "LoopModule");
  ModelChoice_get_choice := Demo.lookup_one "seq2seq" ("Seq2Seq" : @ModelCls Demo.host);
  ModelCls_call := fun cls args => inr (cls, args);
  ParameterInitialization_initialize_model := fun method m =>
    if decide (method = "xavier") then inr (fst m, 0%Z)
    else inl (Raised "unknown initialisation");
  Model_parameters := fun m => inr [snd m];
  LossChoice_get_choice := Demo.lookup_one "ce_loss" ("CrossEntropyLoss" : @LossCls Demo.host);
  LossCls_call := fun cls reduction ignore_index => inr (cls, reduction, ignore_index);
  OptimizerChoice_get_choice := Demo.lookup_one "adam" ("Adam" : @OptimizerCls Demo.host);
  OptimizerCls_call := fun cls ps kwargs => inr (cls, ps);
  Metric_init := [];
  Scheduler_truthy := fun o => true;
  Scheduler_set_optimizer := fun o opt =>
    match o with
    | 0 => inl (Raised "no optimizer")
    | 1 => inr VNone
    | _ => inr (VScheduler o)
    end;
  Scheduler_step := fun o =>
    if decide (o = 2) then inl (Raised "step failed") else inr tt;
  Logger_log_scalar := fun l ms epoch =>
    if decide (l = "down") then inl (Raised "sink down") else inr tt;
  Callable_call := fun f batch batch_idx stage =>
    mret (batch_idx + Z.of_nat (String.length stage))%Z;
  Model_call := fun m args => mret (foldr Z.add (snd m) (positional args));
  super_optimizer_step := fun args =>
    match positional args with
    | [] => mret tt
    | _ :: _ => raise (Raised "closure failed")
    end;
|}.

(** The built object of [Demo] with the scheduler attribute set to [v] and
    the sinks to [sinks]. *)
Definition object (v : @pyval Demo.host) (sinks : option (list (@pyval Demo.host))) :
    @ModelFramework Demo.host :=
  Build_ModelFramework Demo.args ("Seq2Seq", 7%Z)
    (LogitLoss ("CrossEntropyLoss", "mean", 0%Z)) (Some ["accuracy"])
    ("Adam", [7%Z]) v sinks ∅ None None None.

Definition world_of (v : @pyval Demo.host) (sinks : option (list (@pyval Demo.host))) :
    @World Demo.host :=
  Build_World (object v sinks) [] 5%Z [].

Definition no_args : @call_args Demo.host := CallArgs [] [].

Definition one_arg : @call_args Demo.host := CallArgs [1%Z] [].

Definition other_args : @init_args Demo.host :=
  InitArgs "seq2seq" 7%Z "ce_loss" "adam" (Some ["f1"]) (VStr "typo")
    (Some [VStr "nowhere"]) None.

Definition new_model : @Model Demo.host := ("Other", 2%Z).

Definition busy : list (@call Demo.host) :=
  [CallOnValidationEpochStart; CallConfigureOptimizers; CallOnTestEpochStart;
   CallSetModel new_model; CallInitMetrics "validation";
   CallValidationEpochEnd []].

(** Calls that initialise no entry for "train". *)
Definition no_train : list (@call Demo.host) :=
  [CallOnValidationEpochStart; CallConfigureOptimizers; CallSetModel new_model;
   CallOnTestEpochStart; CallValidationEpochEnd []].

Definition good_sinks : @World Demo.host :=
  world_of VNone (Some [VLogger "tb"; VLogger "csv"]).

Definition broken_sinks : @World Demo.host :=
  world_of VNone (Some [VLogger "tb"; VLogger "down"; VLogger "csv"]).

Definition module_loop : @Callable Demo.host := "LoopModule".

Definition plain_loop : @Callable Demo.host := "loop".

Definition tb : @Logger Demo.host := "tb".

Definition csv : @Logger Demo.host := "csv".

Definition down : @pyval Demo.host := VLogger "down".

Definition xavier_args : @init_args Demo.host :=
  InitArgs "seq2seq" 7%Z "ce_loss" "adam" None VNone None (Some "xavier").

Definition xavier_built : @ModelFramework Demo.host :=
  Build_ModelFramework xavier_args ("Seq2Seq", 0%Z)
    (LogitLoss ("CrossEntropyLoss", "mean", 0%Z)) None ("Adam", [0%Z])
    VNone None ∅ None None None.

End Faulty.

(** * Proofs *)

Section FrameworkFacts.
Context `{H : Host} {O : HostOps}.

(** ** Running a method by hand *)

Lemma bind_ok {A B : Type} (m : M A) (k : A -> M B) (w w' : World) (a : A) :
  m w = (inr a, w') -> (m ≫= k) w = k a w'.
Proof. intros Hm. unfold mbind, M_bind. rewrite Hm. reflexivity. Qed.

Lemma bind_raise {A B : Type} (m : M A) (k : A -> M B) (w w' : World) (e : exn) :
  m w = (inl e, w') -> (m ≫= k) w = (inl e, w').
Proof. intros Hm. unfold mbind, M_bind. rewrite Hm. reflexivity. Qed.

Lemma bind_gets {A B : Type} (f : World -> A) (k : A -> M B) (w : World) :
  (gets f ≫= k) w = k (f w) w.
Proof. reflexivity. Qed.

Lemma bind_modify {B : Type} (f : World -> World) (k : unit -> M B) (w : World) :
  (modify f ≫= k) w = k tt (f w).
Proof. reflexivity. Qed.

Lemma getattr_present {A : Type} (name : string)
    (field : ModelFramework -> option A) (w : World) (x : A) :
  field (self w) = Some x -> getattr name field w = (inr x, w).
Proof. intros Hx. unfold getattr. rewrite bind_gets, Hx. reflexivity. Qed.

Lemma getattr_absent {A : Type} (name : string)
    (field : ModelFramework -> option A) (w : World) :
  field (self w) = None ->
  getattr name field w = (inl (AttributeError "ModelFramework" name), w).
Proof. intros Hx. unfold getattr. rewrite bind_gets, Hx. reflexivity. Qed.

(** ** [_init_metrics] and the start hooks *)

Lemma Metric_run (w : World) :
  Metric w = (inr (length (heap w)), with_heap (fun h => h ++ [Metric_init]) w).
Proof. reflexivity. Qed.

(** The comprehension allocates one [Metric] per key of the list, after the
    objects that exist already; it touches nothing but the heap.  A key it
    went through maps to one of the new objects, any other key is as in the
    dictionary it started from. *)
Lemma metric_dict_run (keys : list mkey) :
  forall (d : gmap mkey loc) (w : World),
  exists d' : gmap mkey loc,
    metric_dict keys d w =
      (inr d',
       with_heap (fun h => h ++ replicate (length keys) Metric_init) w) /\
    (forall k, k ∉ keys -> d' !! k = d !! k) /\
    (forall k, k ∈ keys ->
       exists l, d' !! k = Some l /\
                 length (heap w) <= l < length (heap w) + length keys).
Proof.
  induction keys as [|k keys IH]; intros d w.
  - exists d. repeat split.
    + destruct w as [s h e t]. simpl. unfold with_heap, mret, M_ret. simpl.
      rewrite app_nil_r. reflexivity.
    + intros k Hk. inversion Hk.
  - destruct (IH (<[k := length (heap w)]> d)
                 (with_heap (fun h => h ++ [Metric_init]) w))
      as (d' & Hrun & Hout & Hin).
    exists d'. repeat split.
    + change (metric_dict (k :: keys) d w)
        with ((Metric ≫= fun v => metric_dict keys (<[k := v]> d)) w).
      rewrite (bind_ok _ _ _ _ _ (Metric_run w)).
      etrans; [exact Hrun|].
      destruct w as [s h e t]. unfold with_heap. simpl.
      rewrite <- app_assoc. reflexivity.
    + intros k' Hk'. rewrite not_elem_of_cons in Hk'. destruct Hk' as [Hne Hk'].
      rewrite (Hout k' Hk'). apply lookup_insert_ne. congruence.
    + intros k' Hk'. simpl in Hin. rewrite length_app in Hin. simpl in Hin.
      destruct (decide (k' ∈ keys)) as [Hmem | Hmem].
      * destruct (Hin k' Hmem) as (l & Hl & Hrange).
        exists l. split; [exact Hl | simpl; lia].
      * apply elem_of_cons in Hk'. destruct Hk' as [-> | Hk']; [|contradiction].
        exists (length (heap w)). split; [|simpl; lia].
        rewrite (Hout k Hmem). apply lookup_insert_eq.
Qed.

(** What [_init_metrics] leaves: one new [Metric], and the stage's entry
    replaced by a dictionary with the one key [metrics_key] builds. *)
Lemma init_metrics_run (stage : string) (w : World) :
  _init_metrics stage w =
    (inr tt,
     with_self
       (fun s =>
          assign_metrics_list
            (<[stage := {[ metrics_key (get_loss_key stage) (metrics s) :=
                             length (heap w) ]}]> (metrics_list s)) s)
       (with_heap (fun h => h ++ [Metric_init]) w)).
Proof.
  destruct w as [s h e t]. unfold _init_metrics. rewrite bind_gets. simpl.
  unfold mbind, M_bind, mret, M_ret. simpl. rewrite insert_empty. reflexivity.
Qed.

Lemma init_metrics_resets_stage (stage : string) (w : World) :
  resets_stage stage (_init_metrics stage) w.
Proof.
  split; [reflexivity|].
  rewrite init_metrics_run. destruct w as [s h e t].
  eexists _, _. split; [reflexivity|].
  simpl. split; [apply lookup_insert_eq|].
  split; [apply insert_non_empty|]. split.
  - intros k l Hl. apply lookup_singleton_Some in Hl. destruct Hl as [_ <-].
    split; simpl.
    + apply lookup_ge_None_2. lia.
    + rewrite lookup_app_r by lia. rewrite Nat.sub_diag. reflexivity.
  - intros other Hne. apply lookup_insert_ne. congruence.
Qed.

(** C5: each start hook runs [_init_metrics] for its own stage
    ([on_train_start] and [on_training_epoch_start] for "train",
    [on_validation_epoch_start] for "validation", [on_test_epoch_start] for
    "test"); [_init_metrics(s)] replaces [metrics_list[s]] by freshly built
    [Metric] objects and leaves the entry of every other stage as it was. *)
Theorem start_hooks_reset_their_stage (w : World) :
  (forall stage, resets_stage stage (_init_metrics stage) w) /\
  resets_stage "train" on_train_start w /\
  resets_stage "train" on_training_epoch_start w /\
  resets_stage "validation" on_validation_epoch_start w /\
  resets_stage "test" on_test_epoch_start w.
Proof.
  split; [intros stage; apply init_metrics_resets_stage|].
  unfold on_train_start, on_training_epoch_start, on_validation_epoch_start,
    on_test_epoch_start.
  repeat split; apply init_metrics_resets_stage.
Qed.

(** C7: after [_init_metrics(s)] the dictionary [metrics_list[s]] has exactly
    one key, however many metric names are configured: the loss key string
    when [self.metrics] is [None] or empty, and otherwise the single tuple of
    the loss key followed by all the metric names. *)
Theorem init_metrics_single_key (stage : string) (w : World) :
  let w' := snd (_init_metrics stage w) in
  exists (d : gmap mkey loc) (l : loc),
    metrics_list (self w') !! stage = Some d /\
    d = {[ stage_key stage (metrics (self w)) := l ]} /\
    dom d = {[ stage_key stage (metrics (self w)) ]} /\
    size d = 1.
Proof.
  intros w'. subst w'. rewrite init_metrics_run.
  destruct w as [s h e t]. simpl.
  assert (Hkey : metrics_key (get_loss_key stage) (metrics s) =
                 stage_key stage (metrics s)).
  { unfold metrics_key, stage_key. destruct (metrics s) as [[|name names]|];
      reflexivity. }
  rewrite Hkey. eexists _, (length h).
  split; [apply lookup_insert_eq|].
  split; [reflexivity|].
  split; [apply dom_singleton_L | apply map_size_singleton].
Qed.

(** ** What [__init__] leaves in the object *)

Ltac res_step H :=
  match type of H with
  | context [@res_bind _ _ _ ?r] =>
      let E := fresh "E" in
      destruct r eqn:E; simpl in H; [discriminate H|]
  end.

Lemma init_inv (a : init_args) (s : ModelFramework) :
  __init__ a = inr s -> resolved a s /\ copied a s.
Proof.
  intros Hinit. unfold __init__, mbind, mret, res_ret in Hinit.
  do 10 res_step Hinit.
  injection Hinit as <-. split.
  - unfold resolved. simpl. eexists _, _, _, _, _, _.
    repeat (split; [eassumption || reflexivity|]). assumption.
  - unfold copied. simpl. repeat split.
Qed.

(** ** [configure_optimizers] *)

Lemma configure_optimizers_falsy (w : World) :
  truthy (scheduler (self w)) = false ->
  configure_optimizers w = (inr (optimizer (self w)), w).
Proof.
  intros Hf. unfold configure_optimizers.
  rewrite !bind_gets, Hf. reflexivity.
Qed.

(** With a scheduler object in [self.scheduler]: one call of its
    [set_optimizer] with [self.optimizer], the result stored back, the
    optimizer returned. *)
Lemma configure_optimizers_scheduler (w : World) (o : Scheduler) :
  scheduler (self w) = VScheduler o ->
  Scheduler_truthy o = true ->
  configure_optimizers w =
    let opt := optimizer (self w) in
    let w1 := with_trace (fun t => t ++ [EvSetOptimizer o opt]) w in
    match Scheduler_set_optimizer o opt with
    | inr v => (inr opt, with_self (assign_scheduler v) w1)
    | inl e => (inl e, w1)
    end.
Proof.
  intros Hs Ht. unfold configure_optimizers.
  rewrite !bind_gets, Hs.
  change (truthy (VScheduler o)) with (Scheduler_truthy o). rewrite Ht.
  unfold mbind, M_bind, gets. rewrite Hs.
  unfold call_set_optimizer, emit, lift, mbind, M_bind, mret, M_ret, modify.
  destruct (Scheduler_set_optimizer o (optimizer (self w))); reflexivity.
Qed.

(** With a truthy value that is no scheduler object, the attribute lookup of
    [set_optimizer] fails and nothing is returned. *)
Lemma configure_optimizers_no_method (w : World) :
  truthy (scheduler (self w)) = true ->
  (forall o, scheduler (self w) <> VScheduler o) ->
  configure_optimizers w =
    (inl (AttributeError (type_name (scheduler (self w))) "set_optimizer"), w).
Proof.
  intros Ht Hno. unfold configure_optimizers.
  rewrite !bind_gets, Ht. unfold mbind, M_bind, gets.
  destruct (scheduler (self w)) as [| name | o | l]; try reflexivity.
  exfalso. apply (Hno o). reflexivity.
Qed.

(** ** [optimizer_step] *)

Lemma optimizer_step_falsy (args : call_args) (w w1 : World) :
  super_optimizer_step args w = (inr tt, w1) ->
  truthy (scheduler (self w1)) = false ->
  optimizer_step args w = (inr tt, w1).
Proof.
  intros Hsuper Hf. unfold optimizer_step.
  rewrite (bind_ok _ _ _ _ _ Hsuper), bind_gets, Hf. reflexivity.
Qed.

(** With a scheduler object: after the base class's step, exactly one
    [step()] on the scheduler. *)
Lemma optimizer_step_scheduler (args : call_args) (w w1 : World) (o : Scheduler) :
  super_optimizer_step args w = (inr tt, w1) ->
  scheduler (self w1) = VScheduler o ->
  Scheduler_truthy o = true ->
  optimizer_step args w =
    (Scheduler_step o, with_trace (fun t => t ++ [EvSchedulerStep o]) w1).
Proof.
  intros Hsuper Hs Ht. unfold optimizer_step.
  rewrite (bind_ok _ _ _ _ _ Hsuper), bind_gets, Hs.
  change (truthy (VScheduler o)) with (Scheduler_truthy o). rewrite Ht.
  rewrite bind_gets, Hs. reflexivity.
Qed.

Lemma optimizer_step_no_method (args : call_args) (w w1 : World) :
  super_optimizer_step args w = (inr tt, w1) ->
  truthy (scheduler (self w1)) = true ->
  (forall o, scheduler (self w1) <> VScheduler o) ->
  optimizer_step args w =
    (inl (AttributeError (type_name (scheduler (self w1))) "step"), w1).
Proof.
  intros Hsuper Ht Hno. unfold optimizer_step.
  rewrite (bind_ok _ _ _ _ _ Hsuper), bind_gets, Ht, bind_gets.
  unfold call_step.
  destruct (scheduler (self w1)) as [| name | o | l]; try reflexivity.
  exfalso. apply (Hno o). reflexivity.
Qed.

(** When the base class's step raises, the scheduler is not reached. *)
Lemma optimizer_step_super_raises (args : call_args) (w w1 : World) (e : exn) :
  super_optimizer_step args w = (inl e, w1) ->
  optimizer_step args w = (inl e, w1).
Proof. intros Hsuper. unfold optimizer_step. apply bind_raise, Hsuper. Qed.

(** ** [_log_epoch_metrics] and the end hooks *)

Lemma log_epoch_metrics_no_sink (ms : gmap mkey loc) (w : World) :
  truthy_opt_list (pl_loggers (self w)) = false ->
  _log_epoch_metrics ms w = (inr tt, w).
Proof.
  intros Hf. unfold _log_epoch_metrics. rewrite bind_gets, Hf. reflexivity.
Qed.

(** The loop over logger objects whose [log_scalar] returns: one call per
    logger, in the order of the list, each with the same dictionary and the
    current epoch. *)
Lemma for_each_loggers (ms : gmap mkey loc) (ls : list Logger) :
  forall w : World,
  Forall (fun l => Logger_log_scalar l ms (current_epoch w) = inr tt) ls ->
  for_each (fun logger =>
              epoch ← gets current_epoch;
              call_log_scalar logger ms epoch)
           (map VLogger ls) w =
    (inr tt,
     with_trace
       (fun t => t ++ map (fun l => EvLogScalar l ms (current_epoch w)) ls) w).
Proof.
  induction ls as [|l ls IH]; intros w Hall.
  - destruct w as [s h e t]. unfold with_trace. simpl.
    rewrite app_nil_r. reflexivity.
  - apply Forall_cons in Hall. destruct Hall as [Hl Hall].
    change (for_each ?body (map VLogger (l :: ls)) w)
      with ((body (VLogger l) ≫= fun _ => for_each body (map VLogger ls)) w).
    rewrite (bind_ok _ _ w
               (with_trace (fun t => t ++ [EvLogScalar l ms (current_epoch w)]) w)
               tt).
    + rewrite IH by exact Hall.
      destruct w as [s h e t]. unfold with_trace. simpl.
      rewrite <- app_assoc. reflexivity.
    + rewrite bind_gets. unfold call_log_scalar, emit, lift, modify, mbind, M_bind.
      rewrite Hl. reflexivity.
Qed.

Lemma log_epoch_metrics_sinks (ms : gmap mkey loc) (l : Logger)
    (ls : list Logger) (w : World) :
  pl_loggers (self w) = Some (map VLogger (l :: ls)) ->
  Forall (fun l => Logger_log_scalar l ms (current_epoch w) = inr tt) (l :: ls) ->
  _log_epoch_metrics ms w =
    (inr tt,
     with_trace
       (fun t => t ++ map (fun l => EvLogScalar l ms (current_epoch w)) (l :: ls))
       w).
Proof.
  intros Hls Hall. unfold _log_epoch_metrics. rewrite bind_gets, Hls.
  apply (for_each_loggers ms (l :: ls) w Hall).
Qed.

(** A sink given by its name has no [log_scalar]: the loop stops at it. *)
Lemma log_epoch_metrics_sink_name (ms : gmap mkey loc) (name : string)
    (rest : list pyval) (w : World) :
  pl_loggers (self w) = Some (VStr name :: rest) ->
  _log_epoch_metrics ms w = (inl (AttributeError "str" "log_scalar"), w).
Proof.
  intros Hls. unfold _log_epoch_metrics. rewrite bind_gets, Hls. reflexivity.
Qed.

Lemma metrics_list_getitem_present (stage : string) (d : gmap mkey loc)
    (w : World) :
  metrics_list (self w) !! stage = Some d ->
  metrics_list_getitem stage w = (inr d, w).
Proof.
  intros Hd. unfold metrics_list_getitem. rewrite bind_gets, Hd. reflexivity.
Qed.

Lemma metrics_list_getitem_absent (stage : string) (w : World) :
  metrics_list (self w) !! stage = None ->
  metrics_list_getitem stage w = (inl (KeyError stage), w).
Proof.
  intros Hd. unfold metrics_list_getitem. rewrite bind_gets, Hd. reflexivity.
Qed.

(** ** Methods that never create the loop attributes *)

Lemma keeps_loops_ret {A : Type} (a : A) : keeps_loops (mret a : M A).
Proof. intros w. reflexivity. Qed.

Lemma keeps_loops_raise {A : Type} (e : exn) : keeps_loops (raise e : M A).
Proof. intros w. reflexivity. Qed.

Lemma keeps_loops_gets {A : Type} (f : World -> A) : keeps_loops (gets f).
Proof. intros w. reflexivity. Qed.

Lemma keeps_loops_lift {A : Type} (r : res A) : keeps_loops (lift r).
Proof. intros w. reflexivity. Qed.

Lemma keeps_loops_emit (e : event) : keeps_loops (emit e).
Proof. intros w. reflexivity. Qed.

Lemma keeps_loops_modify (f : World -> World) :
  (forall w, loops (self (f w)) = loops (self w)) -> keeps_loops (modify f).
Proof. intros Hf w. apply Hf. Qed.

Lemma keeps_loops_bind {A B : Type} (m : M A) (k : A -> M B) :
  keeps_loops m -> (forall a, keeps_loops (k a)) -> keeps_loops (m ≫= k).
Proof.
  intros Hm Hk w. specialize (Hm w). unfold mbind, M_bind.
  destruct (m w) as [[e | a] w1]; simpl in *.
  - exact Hm.
  - rewrite (Hk a w1). exact Hm.
Qed.

Lemma keeps_loops_for_each {A : Type} (body : A -> M unit) (l : list A) :
  (forall x, keeps_loops (body x)) -> keeps_loops (for_each body l).
Proof.
  intros Hbody. induction l as [|x l IH].
  - apply keeps_loops_ret.
  - apply keeps_loops_bind; [apply Hbody | intros _; exact IH].
Qed.

Create HintDb loops.

#[local] Hint Resolve keeps_loops_ret keeps_loops_raise keeps_loops_gets
  keeps_loops_lift keeps_loops_emit keeps_loops_for_each : loops.

Ltac keeps :=
  repeat first
    [ apply keeps_loops_bind; [|intros ?]
    | apply keeps_loops_modify; intros ?; reflexivity
    | solve [auto with loops]
    | match goal with
      | |- keeps_loops (if ?b then _ else _) => destruct b
      | |- keeps_loops (match ?x with _ => _ end) => destruct x
      end ].

Lemma keeps_loops_set_model (m : Model) : keeps_loops (set_model m).
Proof. unfold set_model. keeps. Qed.

Lemma keeps_loops_configure_optimizers : keeps_loops configure_optimizers.
Proof. unfold configure_optimizers, call_set_optimizer. keeps. Qed.

Lemma keeps_loops_init_metrics (stage : string) :
  keeps_loops (_init_metrics stage).
Proof. intros w. rewrite init_metrics_run. reflexivity. Qed.

Lemma keeps_loops_log_epoch_metrics (ms : gmap mkey loc) :
  keeps_loops (_log_epoch_metrics ms).
Proof.
  unfold _log_epoch_metrics. keeps.
  apply keeps_loops_for_each. intros v. unfold call_log_scalar. keeps.
Qed.

Lemma keeps_loops_epoch_end (stage : string) :
  keeps_loops (d ← metrics_list_getitem stage; _log_epoch_metrics d).
Proof.
  apply keeps_loops_bind.
  - unfold metrics_list_getitem. keeps.
  - intros d. apply keeps_loops_log_epoch_metrics.
Qed.

Lemma run_call_loops (c : call) (w : World) :
  loops (self (run_call c w)) = loops (self w).
Proof.
  destruct c; unfold run_call, after.
  - apply keeps_loops_set_model.
  - apply keeps_loops_configure_optimizers.
  - apply keeps_loops_init_metrics.
  - apply keeps_loops_log_epoch_metrics.
  - apply keeps_loops_init_metrics.
  - apply keeps_loops_init_metrics.
  - apply keeps_loops_init_metrics.
  - apply keeps_loops_init_metrics.
  - apply keeps_loops_epoch_end.
  - apply keeps_loops_epoch_end.
  - apply keeps_loops_epoch_end.
Qed.

Lemma run_calls_loops (cs : list call) :
  forall w : World, loops (self (run_calls cs w)) = loops (self w).
Proof.
  induction cs as [|c cs IH]; intros w; [reflexivity|].
  unfold run_calls. simpl. fold (run_calls cs (run_call c w)).
  rewrite IH. apply run_call_loops.
Qed.

(** ** [set_loop] and the three step methods *)

Lemma bind_returned {A B : Type} (m : M A) (k : A -> M B) (w w2 : World) (b : B) :
  (m ≫= k) w = (inr b, w2) ->
  exists (a : A) (w1 : World), m w = (inr a, w1) /\ k a w1 = (inr b, w2).
Proof.
  unfold mbind, M_bind. destruct (m w) as [[e | a] w1]; intros Hrun.
  - discriminate Hrun.
  - exists a, w1. split; [reflexivity | exact Hrun].
Qed.

(** An assignment that returned has created or replaced the attribute. *)
Lemma setattr_loop_returned (name : string)
    (field : ModelFramework -> option Callable)
    (assign : Callable -> ModelFramework -> ModelFramework)
    (loop : Callable) (w w1 : World) :
  setattr_loop name field assign loop w = (inr tt, w1) ->
  w1 = with_self (assign loop) w.
Proof.
  unfold setattr_loop. rewrite bind_gets.
  destruct (field (self w)) as [old|].
  - destruct (Callable_is_module old && negb (Callable_is_module loop)).
    + intros Hrun. discriminate Hrun.
    + intros Hrun. injection Hrun as <-. reflexivity.
  - intros Hrun. injection Hrun as <-. reflexivity.
Qed.

(** The assignment goes through when the name holds no module or the new
    value is one. *)
Lemma setattr_loop_allowed (name : string)
    (field : ModelFramework -> option Callable)
    (assign : Callable -> ModelFramework -> ModelFramework)
    (loop : Callable) (w : World) :
  Callable_is_module loop = true \/
    (forall old, field (self w) = Some old -> Callable_is_module old = false) ->
  setattr_loop name field assign loop w = (inr tt, with_self (assign loop) w).
Proof.
  intros Hok. unfold setattr_loop. rewrite bind_gets.
  destruct (field (self w)) as [old|]; [|reflexivity].
  destruct Hok as [Hloop | Hold].
  - rewrite Hloop, andb_false_r. reflexivity.
  - rewrite (Hold old eq_refl). reflexivity.
Qed.

(** The assignment is refused when the name holds a module and the new value
    is none. *)
Lemma setattr_loop_refused (name : string)
    (field : ModelFramework -> option Callable)
    (assign : Callable -> ModelFramework -> ModelFramework)
    (loop old : Callable) (w : World) :
  field (self w) = Some old ->
  Callable_is_module old = true ->
  Callable_is_module loop = false ->
  setattr_loop name field assign loop w = (inl (TypeError name), w).
Proof.
  intros Hold Hm Hloop. unfold setattr_loop.
  rewrite bind_gets, Hold, Hm, Hloop. reflexivity.
Qed.

(** A [set_loop] that returned has put [f] in all three attributes and
    touched nothing else. *)
Lemma set_loop_returned (f : Callable) (w w1 : World) :
  set_loop f w = (inr tt, w1) ->
  w1 = with_self (fun s => assign_test_step_imported f
                             (assign_validation_step_imported f
                                (assign_training_step_imported f s))) w.
Proof.
  unfold set_loop. intros Hrun.
  apply bind_returned in Hrun. destruct Hrun as ([] & wa & Htr & Hrun).
  apply bind_returned in Hrun. destruct Hrun as ([] & wb & Hva & Hte).
  apply setattr_loop_returned in Htr, Hva, Hte. subst wa wb w1.
  destruct w as [s h e t]. reflexivity.
Qed.

Lemma set_loop_attributes (f : Callable) (w w1 : World) :
  set_loop f w = (inr tt, w1) ->
  training_step_imported (self w1) = Some f /\
  validation_step_imported (self w1) = Some f /\
  test_step_imported (self w1) = Some f.
Proof.
  intros Hrun. rewrite (set_loop_returned f w w1 Hrun).
  destruct w as [s h e t]. simpl. auto.
Qed.

(** C1: whenever [set_loop f] has returned, then, whatever methods of [call]
    ran since, [training_step], [validation_step] and [test_step] return
    what [f] returns when it is called with the framework object, the
    batch, the batch index and the stage name "train", "validation" and
    "test" respectively. *)
Theorem set_loop_delegates (f : Callable) (cs : list call) (batch : Batch)
    (batch_idx : Z) (w w1 : World) :
  set_loop f w = (inr tt, w1) ->
  let w' := run_calls cs w1 in
  training_step batch batch_idx w' = Callable_call f batch batch_idx "train" w' /\
  validation_step batch batch_idx w' =
    Callable_call f batch batch_idx "validation" w' /\
  test_step batch batch_idx w' = Callable_call f batch batch_idx "test" w'.
Proof.
  intros Hrun w'.
  pose proof (run_calls_loops cs w1) as Hloops. fold w' in Hloops.
  destruct (set_loop_attributes f w w1 Hrun) as (Htr & Hva & Hte).
  unfold loops in Hloops. rewrite Htr, Hva, Hte in Hloops.
  injection Hloops as Htr' Hva' Hte'.
  unfold training_step, validation_step, test_step.
  split; [|split].
  - rewrite (bind_ok _ _ w' w' f) by apply getattr_present, Htr'. reflexivity.
  - rewrite (bind_ok _ _ w' w' f) by apply getattr_present, Hva'. reflexivity.
  - rewrite (bind_ok _ _ w' w' f) by apply getattr_present, Hte'. reflexivity.
Qed.

(** ** [forward] *)

(** C9: [forward] called with positional arguments [args] and keyword
    arguments [kwargs] is [self.model] called with the same [args] and
    [kwargs]: the same arguments, the same result, the same effect on the
    world. *)
Theorem forward_delegates (args : call_args) (w : World) :
  forward args w = Model_call (model (self w)) args w.
Proof. unfold forward. apply bind_gets. Qed.

(** ** The step methods before [set_loop] *)

(** C10: on an object built by [__init__] on which [set_loop] was never
    called, whatever methods of [call] ran in between,
    [training_step], [validation_step] and [test_step] fail with an
    [AttributeError] for the attribute [set_loop] would have created, and
    change nothing. *)
Theorem steps_before_set_loop (a : init_args) (s : ModelFramework)
    (cs : list call) (w : World) (batch : Batch) (batch_idx : Z) :
  __init__ a = inr s ->
  self w = s ->
  let w' := run_calls cs w in
  training_step batch batch_idx w' =
    (inl (AttributeError "ModelFramework" "training_step_imported"), w') /\
  validation_step batch batch_idx w' =
    (inl (AttributeError "ModelFramework" "validation_step_imported"), w') /\
  test_step batch batch_idx w' =
    (inl (AttributeError "ModelFramework" "test_step_imported"), w').
Proof.
  intros Hinit Hself w'.
  destruct (init_inv a s Hinit) as [_ (_ & _ & _ & _ & _ & Htr & Hva & Hte)].
  pose proof (run_calls_loops cs w) as Hloops. fold w' in Hloops.
  rewrite Hself in Hloops. unfold loops in Hloops.
  rewrite Htr, Hva, Hte in Hloops.
  injection Hloops as Htr' Hva' Hte'.
  unfold training_step, validation_step, test_step.
  split; [|split]; apply bind_raise, getattr_absent; assumption.
Qed.

(** ** A scheduler or a sink given by its name *)

(** C2, on the code: [__init__] looks the model, the loss and the optimizer
    up by name and keeps the objects built from what it finds, but a
    scheduler passed by name stays that name: [self.scheduler] is the string
    itself and no scheduler object. *)
Theorem init_keeps_scheduler_name (a : init_args) (s : ModelFramework)
    (name : string) :
  __init__ a = inr s ->
  arg_scheduler a = VStr name ->
  resolved a s /\
  scheduler s = VStr name /\
  forall o : Scheduler, scheduler s <> VScheduler o.
Proof.
  intros Hinit Hname.
  destruct (init_inv a s Hinit) as [Hres (_ & _ & Hs & _)].
  rewrite Hname in Hs. split; [exact Hres|]. split; [exact Hs|].
  intros o Ho. rewrite Hs in Ho. discriminate Ho.
Qed.

(** C3, on the code: built with a scheduler name, the object's
    [configure_optimizers] returns no optimizer: the name is truthy, a string
    has no [set_optimizer], and the call ends in an [AttributeError]. *)
Theorem configure_optimizers_on_scheduler_name (a : init_args)
    (s : ModelFramework) (name : string) (w : World) :
  __init__ a = inr s ->
  arg_scheduler a = VStr name ->
  name <> "" ->
  self w = s ->
  configure_optimizers w = (inl (AttributeError "str" "set_optimizer"), w).
Proof.
  intros Hinit Hname Hne Hself.
  destruct (init_inv a s Hinit) as [_ (_ & _ & Hs & _)].
  rewrite Hname, <- Hself in Hs.
  rewrite configure_optimizers_no_method.
  - rewrite Hs. reflexivity.
  - rewrite Hs. simpl. apply bool_decide_eq_true. exact Hne.
  - intros o Ho. rewrite Hs in Ho. discriminate Ho.
Qed.

(** C4, on the code: built with a scheduler name, the object's
    [optimizer_step] runs the base class's step and then fails with an
    [AttributeError] on the name's missing [step]; no scheduler is stepped. *)
Theorem optimizer_step_on_scheduler_name (a : init_args) (s : ModelFramework)
    (name : string) (args : call_args) (w w1 : World) :
  __init__ a = inr s ->
  arg_scheduler a = VStr name ->
  name <> "" ->
  self w = s ->
  super_optimizer_step args w = (inr tt, w1) ->
  scheduler (self w1) = scheduler (self w) ->
  optimizer_step args w = (inl (AttributeError "str" "step"), w1) /\
  trace (snd (optimizer_step args w)) = trace w1.
Proof.
  intros Hinit Hname Hne Hself Hsuper Hsame.
  destruct (init_inv a s Hinit) as [_ (_ & _ & Hs & _)].
  rewrite Hname, <- Hself, <- Hsame in Hs.
  assert (Hrun : optimizer_step args w =
                 (inl (AttributeError "str" "step"), w1)).
  { rewrite (optimizer_step_no_method args w w1 Hsuper).
    - rewrite Hs. reflexivity.
    - rewrite Hs. simpl. apply bool_decide_eq_true. exact Hne.
    - intros o Ho. rewrite Hs in Ho. discriminate Ho. }
  split; [exact Hrun|]. rewrite Hrun. reflexivity.
Qed.

(** C6, on the code: built with the name of a logging sink in [pl_loggers],
    the object forwards nothing at the end of an epoch whose metrics were
    initialised by the start hook: each end hook fails with an
    [AttributeError] on the name's missing [log_scalar]. *)
Theorem epoch_end_on_sink_name (a : init_args) (s : ModelFramework)
    (name : string) (rest : list pyval) (outputs : list PyRet) (w : World) :
  __init__ a = inr s ->
  arg_pl_loggers a = Some (VStr name :: rest) ->
  self w = s ->
  (let w1 := after on_train_start w in
   training_epoch_end outputs w1 =
     (inl (AttributeError "str" "log_scalar"), w1)) /\
  (let w1 := after on_validation_epoch_start w in
   validation_epoch_end outputs w1 =
     (inl (AttributeError "str" "log_scalar"), w1)) /\
  (let w1 := after on_test_epoch_start w in
   test_epoch_end outputs w1 =
     (inl (AttributeError "str" "log_scalar"), w1)).
Proof.
  intros Hinit Hname Hself.
  destruct (init_inv a s Hinit) as [_ (_ & _ & _ & Hls & _)].
  rewrite Hname, <- Hself in Hls.
  assert (Hstage : forall stage,
            let w1 := after (_init_metrics stage) w in
            (d ← metrics_list_getitem stage; _log_epoch_metrics d) w1 =
              (inl (AttributeError "str" "log_scalar"), w1)).
  { intros stage w1.
    destruct (init_metrics_resets_stage stage w)
      as (_ & w' & d & Hrun & Hd & _).
    assert (Hw1 : w1 = w') by (unfold w1, after; rewrite Hrun; reflexivity).
    rewrite Hw1.
    rewrite (bind_ok _ _ _ _ _ (metrics_list_getitem_present stage d w' Hd)).
    apply (log_epoch_metrics_sink_name d name rest).
    rewrite <- Hw1. unfold w1, after. rewrite init_metrics_run.
    destruct w as [s0 h e t]. exact Hls. }
  split; [apply (Hstage "train")|].
  split; [apply (Hstage "validation") | apply (Hstage "test")].
Qed.

End FrameworkFacts.

(** ** [get_loss_key] *)

(** C8: [get_loss_key] is defined on every string; it answers "loss" exactly
    on "train", "val_loss" exactly on "validation", and "test_loss" on every
    other string. *)
Theorem get_loss_key_total (stage : string) :
  (get_loss_key stage = "loss" <-> stage = "train") /\
  (get_loss_key stage = "val_loss" <-> stage = "validation") /\
  (get_loss_key stage = "test_loss" <->
     stage <> "train" /\ stage <> "validation").
Proof.
  unfold get_loss_key.
  destruct (decide (stage = "train")) as [Ht | Ht].
  - subst stage. repeat split; first [discriminate | tauto | idtac].
  - destruct (decide (stage = "validation")) as [Hv | Hv].
    + subst stage. repeat split; first [discriminate | tauto | idtac].
    + repeat split; first [discriminate | tauto | idtac].
Qed.

(** ** Runs on the concrete host *)

Module DemoRuns.
Import Demo.

Example get_loss_key_train : get_loss_key "train" = "loss".
Proof. reflexivity. Qed.

Example get_loss_key_validation : get_loss_key "validation" = "val_loss".
Proof. reflexivity. Qed.

Example get_loss_key_test : get_loss_key "test" = "test_loss".
Proof. reflexivity. Qed.

Example get_loss_key_unknown : get_loss_key "predict" = "test_loss".
Proof. reflexivity. Qed.

Example init_args_built : __init__ args = inr built.
Proof. reflexivity. Qed.

(** An unknown model name: the lookup raises and no object is built. *)
Example init_unknown_model :
  __init__ (InitArgs "gpt" 7%Z "ce_loss" "adam" None VNone None None) =
    inl (KeyError "gpt").
Proof. reflexivity. Qed.

Example configure_optimizers_wired :
  configure_optimizers wired_world =
    (inr ("Adam", [7%Z]),
     Build_World wired [] 3%Z [EvSetOptimizer 4000 ("Adam", [7%Z])]).
Proof. reflexivity. Qed.

Example optimizer_step_wired :
  optimizer_step (CallArgs [] []) wired_world =
    (inr tt, Build_World wired [] 3%Z [EvSchedulerStep 4000]).
Proof. reflexivity. Qed.

Example optimizer_step_no_scheduler :
  optimizer_step (CallArgs [] [])
    (Build_World (assign_scheduler VNone wired) [] 3%Z []) =
    (inr tt, Build_World (assign_scheduler VNone wired) [] 3%Z []).
Proof. reflexivity. Qed.

Example init_metrics_wired :
  map_to_list <$>
    (metrics_list (self (after (_init_metrics "validation") wired_world))
       !! "validation") =
    Some [(KTuple ["val_loss"; "accuracy"; "f1"], 0)].
Proof. vm_compute. reflexivity. Qed.

Example epoch_end_wired :
  trace (after (training_epoch_end []) (after on_train_start wired_world)) =
    [EvLogScalar "tb" {[ KTuple ["loss"; "accuracy"; "f1"] := 0 ]} 3%Z;
     EvLogScalar "csv" {[ KTuple ["loss"; "accuracy"; "f1"] := 0 ]} 3%Z].
Proof. vm_compute. reflexivity. Qed.

(** An end hook before its start hook: the stage has no entry yet. *)
Example epoch_end_uninitialised :
  training_epoch_end [] wired_world = (inl (KeyError "train"), wired_world).
Proof. reflexivity. Qed.

Example forward_wired :
  fst (forward (CallArgs [1%Z; 2%Z] []) wired_world) = inr 10%Z.
Proof. reflexivity. Qed.

Example training_step_after_set_loop :
  fst (training_step [] 4%Z (after (set_loop "loop") wired_world)) = inr 9%Z.
Proof. reflexivity. Qed.

Lemma set_loop_delegates_witness :
  set_loop loop world = (inr tt, after (set_loop loop) world) /\
  training_step [] 4%Z (run_calls calls (after (set_loop loop) world)) =
    Callable_call loop [] 4%Z "train"
      (run_calls calls (after (set_loop loop) world)).
Proof.
  split; [reflexivity|].
  exact (proj1 (set_loop_delegates loop calls [] 4%Z world
                  (after (set_loop loop) world) eq_refl)).
Defined.

Lemma steps_before_set_loop_witness :
  __init__ args = inr built /\
  training_step [] 0%Z (run_calls calls world) =
    (inl (AttributeError "ModelFramework" "training_step_imported"),
     run_calls calls world).
Proof.
  split; [reflexivity|].
  exact (proj1 (steps_before_set_loop args built calls world [] 0%Z
                  eq_refl eq_refl)).
Defined.

Lemma init_keeps_scheduler_name_witness :
  __init__ args = inr built /\ scheduler built = VStr "noam".
Proof.
  split; [reflexivity|].
  exact (proj1 (proj2 (init_keeps_scheduler_name args built "noam"
                         eq_refl eq_refl))).
Defined.

Lemma configure_optimizers_on_scheduler_name_witness :
  __init__ args = inr built /\
  configure_optimizers world =
    (inl (AttributeError "str" "set_optimizer"), world).
Proof.
  split; [reflexivity|].
  apply (configure_optimizers_on_scheduler_name args built "noam" world);
    first [reflexivity | discriminate].
Defined.

Lemma optimizer_step_on_scheduler_name_witness :
  __init__ args = inr built /\
  optimizer_step (CallArgs [] []) world =
    (inl (AttributeError "str" "step"), world).
Proof.
  split; [reflexivity|].
  refine (proj1 (optimizer_step_on_scheduler_name args built "noam"
                   (CallArgs [] []) world world eq_refl eq_refl _
                   eq_refl eq_refl eq_refl)).
  discriminate.
Defined.

Lemma epoch_end_on_sink_name_witness :
  __init__ args = inr built /\
  training_epoch_end [] (after on_train_start world) =
    (inl (AttributeError "str" "log_scalar"), after on_train_start world).
Proof.
  split; [reflexivity|].
  exact (proj1 (epoch_end_on_sink_name args built "tensorboard" [] [] world
                  eq_refl eq_refl eq_refl)).
Defined.

End DemoRuns.

(** * More of the class: footprints, invariants and compositions *)

Section MoreFacts.
Context `{H : Host} {O : HostOps}.

(** ** Relations kept by the building blocks of a method *)

Section Preserves.
Context (R : World -> World -> Prop) `{!PreOrder R}.

Lemma preserves_ret {A : Type} (a : A) : preserves R (mret a : M A).
Proof. intros w. simpl. reflexivity. Qed.

Lemma preserves_raise {A : Type} (e : exn) : preserves R (raise e : M A).
Proof. intros w. simpl. reflexivity. Qed.

Lemma preserves_gets {A : Type} (f : World -> A) : preserves R (gets f).
Proof. intros w. simpl. reflexivity. Qed.

Lemma preserves_lift {A : Type} (r : res A) : preserves R (lift r).
Proof. intros w. simpl. reflexivity. Qed.

Lemma preserves_modify (f : World -> World) :
  (forall w, R w (f w)) -> preserves R (modify f).
Proof. intros Hf w. apply Hf. Qed.

Lemma preserves_bind {A B : Type} (m : M A) (k : A -> M B) :
  preserves R m -> (forall a, preserves R (k a)) -> preserves R (m ≫= k).
Proof.
  intros Hm Hk w. specialize (Hm w). unfold mbind, M_bind.
  destruct (m w) as [[e | a] w1]; simpl in *.
  - exact Hm.
  - etrans; [exact Hm | apply Hk].
Qed.

Lemma preserves_for_each {A : Type} (body : A -> M unit) (l : list A) :
  (forall x, preserves R (body x)) -> preserves R (for_each body l).
Proof.
  intros Hbody. induction l as [|x l IH].
  - apply preserves_ret.
  - apply preserves_bind; [apply Hbody | intros _; exact IH].
Qed.

Lemma preserves_emit (e : event) : admits R PTrace -> preserves R (emit e).
Proof. intros Ht. apply preserves_modify. intros w. apply Ht. Qed.

Lemma preserves_set_model (m : Model) :
  admits R PModel -> preserves R (set_model m).
Proof. intros Hm. apply preserves_modify. intros w. apply Hm. Qed.

Lemma preserves_configure_optimizers :
  admits R PTrace -> admits R PScheduler -> preserves R configure_optimizers.
Proof.
  intros Ht Hs. unfold configure_optimizers.
  apply preserves_bind; [apply preserves_gets | intros opt].
  apply preserves_bind; [apply preserves_gets | intros c].
  apply preserves_bind; [| intros _; apply preserves_ret].
  destruct (truthy c); [| apply preserves_ret].
  apply preserves_bind; [apply preserves_gets | intros v].
  apply preserves_bind.
  - unfold call_set_optimizer.
    destruct v; try apply preserves_raise.
    apply preserves_bind; [apply preserves_emit, Ht | intros _].
    apply preserves_lift.
  - intros v'. apply preserves_modify. intros w. apply Hs.
Qed.

Lemma preserves_init_metrics (stage : string) :
  admits R PHeap -> admits R (PMetricsList stage) ->
  preserves R (_init_metrics stage).
Proof.
  intros Hh Hm w. rewrite init_metrics_run. simpl.
  etrans; [apply (Hh w)|].
  apply (Hm (with_heap (fun h => h ++ [Metric_init]) w)).
Qed.

Lemma preserves_log_epoch_metrics (ms : gmap mkey loc) :
  admits R PTrace -> preserves R (_log_epoch_metrics ms).
Proof.
  intros Ht. unfold _log_epoch_metrics.
  apply preserves_bind; [apply preserves_gets | intros ls].
  destruct (truthy_opt_list ls); [| apply preserves_ret].
  apply preserves_for_each. intros v.
  apply preserves_bind; [apply preserves_gets | intros epoch].
  unfold call_log_scalar. destruct v; try apply preserves_raise.
  apply preserves_bind; [apply preserves_emit, Ht | intros _].
  apply preserves_lift.
Qed.

Lemma preserves_epoch_end (stage : string) :
  admits R PTrace ->
  preserves R (d ← metrics_list_getitem stage; _log_epoch_metrics d).
Proof.
  intros Ht. apply preserves_bind.
  - unfold metrics_list_getitem.
    apply preserves_bind; [apply preserves_gets | intros ml].
    destruct (ml !! stage); [apply preserves_ret | apply preserves_raise].
  - intros d. apply preserves_log_epoch_metrics, Ht.
Qed.

(** A call keeps every relation that admits the steps it is made of. *)
Lemma run_call_admitted (c : call) (w : World) :
  Forall (admits R) (effects c) -> R w (run_call c w).
Proof.
  intros Hadm.
  destruct c; simpl in Hadm; unfold run_call, after;
    repeat match goal with
           | Hf : Forall _ (_ :: _) |- _ =>
               apply Forall_cons in Hf; destruct Hf as [? Hf]
           end.
  - apply preserves_set_model; assumption.
  - apply preserves_configure_optimizers; assumption.
  - apply preserves_init_metrics; assumption.
  - apply preserves_log_epoch_metrics; assumption.
  - apply (preserves_init_metrics "train"); assumption.
  - apply (preserves_init_metrics "train"); assumption.
  - apply (preserves_init_metrics "validation"); assumption.
  - apply (preserves_init_metrics "test"); assumption.
  - apply (preserves_epoch_end "train"); assumption.
  - apply (preserves_epoch_end "validation"); assumption.
  - apply (preserves_epoch_end "test"); assumption.
Qed.

Lemma run_calls_admitted (cs : list call) :
  forall w : World,
  Forall (fun c => Forall (admits R) (effects c)) cs -> R w (run_calls cs w).
Proof.
  induction cs as [|c cs IH]; intros w Hall.
  - reflexivity.
  - apply Forall_cons in Hall. destruct Hall as [Hc Hcs].
    change (run_calls (c :: cs) w) with (run_calls cs (run_call c w)).
    etrans; [apply run_call_admitted, Hc | apply IH, Hcs].
Qed.

(** A relation that admits every step but [p] is kept by calls that are not
    made of [p]. *)
Lemma run_calls_avoiding (p : prim) (cs : list call) (w : World) :
  (forall q, q <> p -> admits R q) ->
  Forall (fun c => p ∉ effects c) cs ->
  R w (run_calls cs w).
Proof.
  intros Hadm Hcs. apply run_calls_admitted.
  eapply Forall_impl; [exact Hcs|].
  intros c Hp. apply Forall_forall. intros q Hq.
  apply Hadm. intros ->. contradiction.
Qed.

End Preserves.

(** ** What call sequences keep *)

#[local] Instance unchanged_preorder {X : Type} (f : World -> X) :
  PreOrder (unchanged f).
Proof.
  split.
  - intros w. reflexivity.
  - intros w1 w2 w3 H12 H23. unfold unchanged in *. congruence.
Qed.

#[local] Instance grows_preorder : PreOrder grows.
Proof.
  split.
  - intros w. unfold grows, same_config. repeat split; reflexivity.
  - intros w1 w2 w3 (Hc12 & He12 & Hh12 & Ht12) (Hc23 & He23 & Hh23 & Ht23).
    unfold grows. split; [|split; [congruence|split; etrans; eassumption]].
    unfold same_config in *.
    destruct Hc12 as (? & ? & ? & ? & ? & ?), Hc23 as (? & ? & ? & ? & ? & ?).
    repeat split; congruence.
Qed.

Lemma grows_admits (p : prim) : admits grows p.
Proof.
  destruct p; simpl; intros [s h e t]; intros;
    unfold grows, same_config; simpl;
    repeat split; try reflexivity; apply prefix_app_r; reflexivity.
Qed.

(** X1: no method of [call] ever assigns [hparams], [loss], [metrics],
    [optimizer], [pl_loggers] or a loop attribute, and none changes the
    epoch; [Metric] objects and the calls made on schedulers and sinks are
    only ever added, never removed or reordered. *)
Theorem calls_only_grow (cs : list call) (w : World) :
  grows w (run_calls cs w).
Proof.
  apply run_calls_admitted; [apply grows_preorder|].
  apply Forall_forall. intros c _. apply Forall_forall. intros p _.
  apply grows_admits.
Qed.

(** X2: each mutable part of the world has one kind of writer.  Without a
    [set_model] the model stays; without a [configure_optimizers] the
    scheduler stays; the entry of a stage stays unless [_init_metrics] or a
    start hook of that stage runs; the heap of [Metric] objects stays unless
    some stage is initialised; and no call is made on a scheduler or sink
    unless [configure_optimizers], [_log_epoch_metrics] or an end hook
    runs. *)
Theorem attributes_have_one_writer (cs : list call) (w : World) :
  (Forall (fun c => PModel ∉ effects c) cs ->
   model (self (run_calls cs w)) = model (self w)) /\
  (Forall (fun c => PScheduler ∉ effects c) cs ->
   scheduler (self (run_calls cs w)) = scheduler (self w)) /\
  (forall stage,
     Forall (fun c => PMetricsList stage ∉ effects c) cs ->
     metrics_list (self (run_calls cs w)) !! stage =
       metrics_list (self w) !! stage) /\
  (Forall (fun c => PHeap ∉ effects c) cs ->
   heap (run_calls cs w) = heap w) /\
  (Forall (fun c => PTrace ∉ effects c) cs ->
   trace (run_calls cs w) = trace w).
Proof.
  split; [|split; [|split; [|split]]].
  - intros Hcs.
    apply (run_calls_avoiding (unchanged (fun w => model (self w))) PModel);
      [|exact Hcs].
    intros [] Hq; simpl; intros; try reflexivity. congruence.
  - intros Hcs.
    apply (run_calls_avoiding (unchanged (fun w => scheduler (self w)))
             PScheduler); [|exact Hcs].
    intros [] Hq; simpl; intros; try reflexivity. congruence.
  - intros stage Hcs.
    apply (run_calls_avoiding
             (unchanged (fun w => metrics_list (self w) !! stage))
             (PMetricsList stage)); [|exact Hcs].
    intros [] Hq; simpl; intros; try reflexivity.
    unfold unchanged. simpl. apply lookup_insert_ne. congruence.
  - intros Hcs.
    apply (run_calls_avoiding (unchanged heap) PHeap); [|exact Hcs].
    intros [] Hq; simpl; intros; try reflexivity. congruence.
  - intros Hcs.
    apply (run_calls_avoiding (unchanged trace) PTrace); [|exact Hcs].
    intros [] Hq; simpl; intros; try reflexivity. congruence.
Qed.

(** ** The entries of [metrics_list] *)

Lemma metrics_key_stage_key (stage : string) (ms : option (list string)) :
  metrics_key (get_loss_key stage) ms = stage_key stage ms.
Proof. destruct ms as [[|name names]|]; reflexivity. Qed.

#[local] Instance entries_kept_preorder : PreOrder entries_kept.
Proof.
  split.
  - intros w. unfold entries_kept. auto.
  - intros w1 w2 w3 (Hl12 & Hm12 & Hh12) (Hl23 & Hm23 & Hh23).
    unfold entries_kept. split; [congruence|]. split; [congruence|].
    etrans; eassumption.
Qed.

Lemma entries_kept_well_formed (w w' : World) :
  entries_kept w w' -> metrics_well_formed w -> metrics_well_formed w'.
Proof.
  intros (Hl & Hm & Hh) [Hone Halias]. split.
  - intros stage d Hd. rewrite Hl in Hd. rewrite Hm.
    destruct (Hone stage d Hd) as (l & Hdl & Hheap).
    exists l. split; [exact Hdl|]. eapply prefix_lookup_Some; eassumption.
  - intros stage1 stage2 d1 d2 k1 k2 l H1 Hk1 H2 Hk2.
    rewrite Hl in H1, H2. eapply Halias; eassumption.
Qed.

Lemma init_metrics_well_formed (stage : string) (w : World) :
  metrics_well_formed w -> metrics_well_formed (after (_init_metrics stage) w).
Proof.
  intros [Hone Halias]. unfold after. rewrite init_metrics_run.
  destruct w as [s h e t].
  unfold with_self, with_heap, assign_metrics_list.
  cbn [self heap metrics_list metrics snd] in *.
  rewrite metrics_key_stage_key.
  assert (Hold : forall stage' d k (l : loc),
            metrics_list s !! stage' = Some d -> d !! k = Some l ->
            l < length h).
  { intros stage' d k l Hd Hk. destruct (Hone stage' d Hd) as (l' & -> & Hl').
    apply lookup_singleton_Some in Hk. destruct Hk as [_ <-].
    eapply lookup_lt_Some, Hl'. }
  split.
  - intros stage' d Hd. cbn [self heap metrics_list metrics] in *.
    destruct (decide (stage = stage')) as [<- | Hne].
    + rewrite lookup_insert_eq in Hd. injection Hd as <-.
      exists (length h). split; [reflexivity|].
      rewrite lookup_app_r by lia. rewrite Nat.sub_diag. reflexivity.
    + rewrite lookup_insert_ne in Hd by exact Hne.
      destruct (Hone stage' d Hd) as (l & Hdl & Hheap).
      exists l. split; [exact Hdl|]. apply lookup_app_l_Some, Hheap.
  - intros stage1 stage2 d1 d2 k1 k2 l H1 Hk1 H2 Hk2.
    cbn [self heap metrics_list metrics] in *.
    destruct (decide (stage = stage1)) as [<- | Hne1];
      destruct (decide (stage = stage2)) as [<- | Hne2]; try reflexivity.
    + rewrite lookup_insert_eq in H1. injection H1 as <-.
      apply lookup_singleton_Some in Hk1. destruct Hk1 as [_ <-].
      rewrite lookup_insert_ne in H2 by exact Hne2.
      pose proof (Hold stage2 d2 k2 _ H2 Hk2). lia.
    + rewrite lookup_insert_eq in H2. injection H2 as <-.
      apply lookup_singleton_Some in Hk2. destruct Hk2 as [_ <-].
      rewrite lookup_insert_ne in H1 by exact Hne1.
      pose proof (Hold stage1 d1 k1 _ H1 Hk1). lia.
    + rewrite lookup_insert_ne in H1 by exact Hne1.
      rewrite lookup_insert_ne in H2 by exact Hne2.
      eapply Halias; eassumption.
Qed.

Lemma run_call_well_formed (c : call) (w : World) :
  metrics_well_formed w -> metrics_well_formed (run_call c w).
Proof.
  intros Hwf.
  assert (Hkept : Forall (admits entries_kept) (effects c) ->
                  metrics_well_formed (run_call c w)).
  { intros Hadm. eapply entries_kept_well_formed; [|exact Hwf].
    apply run_call_admitted; [apply entries_kept_preorder | exact Hadm]. }
  assert (Hmodel : admits entries_kept PModel).
  { intros [s h e t] m. unfold entries_kept. simpl. auto. }
  assert (Hsched : admits entries_kept PScheduler).
  { intros [s h e t] v. unfold entries_kept. simpl. auto. }
  assert (Htrace : admits entries_kept PTrace).
  { intros [s h e t] ev. unfold entries_kept. simpl. auto. }
  destruct c; simpl in Hkept;
    first [ apply Hkept; repeat (apply Forall_cons; split; [assumption|]);
            solve [constructor]
          | apply init_metrics_well_formed, Hwf ].
Qed.

Lemma run_calls_well_formed (cs : list call) :
  forall w : World,
  metrics_well_formed w -> metrics_well_formed (run_calls cs w).
Proof.
  induction cs as [|c cs IH]; intros w Hwf; [exact Hwf|].
  change (run_calls (c :: cs) w) with (run_calls cs (run_call c w)).
  apply IH, run_call_well_formed, Hwf.
Qed.

(** X3: on an object built by [__init__] and driven by the methods of
    [call], every entry of [metrics_list] holds exactly one [Metric], filed
    under the key of its stage, still in the state [Metric()] built it in
    (the class itself never records a value), and no [Metric] is shared by
    two stages. *)
Theorem metrics_stay_well_formed (a : init_args) (s : ModelFramework)
    (cs : list call) (w : World) :
  __init__ a = inr s ->
  self w = s ->
  metrics_well_formed (run_calls cs w).
Proof.
  intros Hinit Hself. apply run_calls_well_formed.
  destruct (init_inv a s Hinit) as [_ (_ & _ & _ & _ & Hempty & _)].
  rewrite <- Hself in Hempty. split.
  - intros stage d Hd. rewrite Hempty, lookup_empty in Hd. discriminate Hd.
  - intros stage1 stage2 d1 d2 k1 k2 l Hd. rewrite Hempty, lookup_empty in Hd.
    discriminate Hd.
Qed.

(** X4: the end hook of a stage that was never initialised since
    [__init__] raises [KeyError] for that stage, whatever else ran and
    whatever [pl_loggers] holds, and calls no sink. *)
Theorem epoch_end_before_start (a : init_args) (s : ModelFramework)
    (cs : list call) (outputs : list PyRet) (w : World) :
  __init__ a = inr s ->
  self w = s ->
  (Forall (fun c => PMetricsList "train" ∉ effects c) cs ->
   training_epoch_end outputs (run_calls cs w) =
     (inl (KeyError "train"), run_calls cs w)) /\
  (Forall (fun c => PMetricsList "validation" ∉ effects c) cs ->
   validation_epoch_end outputs (run_calls cs w) =
     (inl (KeyError "validation"), run_calls cs w)) /\
  (Forall (fun c => PMetricsList "test" ∉ effects c) cs ->
   test_epoch_end outputs (run_calls cs w) =
     (inl (KeyError "test"), run_calls cs w)).
Proof.
  intros Hinit Hself.
  destruct (init_inv a s Hinit) as [_ (_ & _ & _ & _ & Hempty & _)].
  rewrite <- Hself in Hempty.
  assert (Hstage : forall stage,
            Forall (fun c => PMetricsList stage ∉ effects c) cs ->
            (d ← metrics_list_getitem stage; _log_epoch_metrics d)
              (run_calls cs w) = (inl (KeyError stage), run_calls cs w)).
  { intros stage Hcs. apply bind_raise, metrics_list_getitem_absent.
    transitivity (metrics_list (self w) !! stage).
    - apply (run_calls_avoiding
               (unchanged (fun w => metrics_list (self w) !! stage))
               (PMetricsList stage)); [|exact Hcs].
      intros [] Hq; simpl; intros; try reflexivity.
      unfold unchanged. simpl. apply lookup_insert_ne. congruence.
    - rewrite Hempty. apply lookup_empty. }
  split; [apply (Hstage "train")|].
  split; [apply (Hstage "validation") | apply (Hstage "test")].
Qed.

(** ** Forwarding to the sinks *)

(** The loop over sinks that accept the call goes on with what follows
    them. *)
Lemma for_each_loggers_then (ms : gmap mkey loc) (ok : list Logger)
    (rest : list pyval) :
  forall w : World,
  sinks_accept ms (current_epoch w) ok ->
  for_each (fun logger =>
              epoch ← gets current_epoch;
              call_log_scalar logger ms epoch)
           (map VLogger ok ++ rest) w =
  for_each (fun logger =>
              epoch ← gets current_epoch;
              call_log_scalar logger ms epoch)
           rest
           (with_trace
              (fun t => t ++ map (log_event ms (current_epoch w)) ok) w).
Proof.
  induction ok as [|l ok IH]; intros w Hall.
  - destruct w as [s h e t]. unfold with_trace. simpl.
    rewrite app_nil_r. reflexivity.
  - apply Forall_cons in Hall. destruct Hall as [Hl Hall].
    change (for_each ?body (map VLogger (l :: ok) ++ rest) w)
      with ((body (VLogger l) ≫=
               fun _ => for_each body (map VLogger ok ++ rest)) w).
    rewrite (bind_ok _ _ w
               (with_trace (fun t => t ++ [log_event ms (current_epoch w) l]) w)
               tt).
    + rewrite IH by exact Hall.
      destruct w as [s h e t]. unfold with_trace. simpl.
      rewrite <- app_assoc. reflexivity.
    + rewrite bind_gets.
      unfold call_log_scalar, emit, lift, modify, mbind, M_bind.
      rewrite Hl. reflexivity.
Qed.

(** X5: [_log_epoch_metrics] stops at the first element of [pl_loggers]
    whose [log_scalar] does not return, be it a sink that raises or a value
    that has no such method: the sinks before it were called once each in
    list order, the elements after it are never reached, the exception is
    the call's, and nothing but the trace of calls changes. *)
Theorem log_epoch_metrics_stops_at_failure (ms : gmap mkey loc)
    (ok : list Logger) (bad : pyval) (rest : list pyval) (e : exn)
    (w : World) :
  pl_loggers (self w) = Some (map VLogger ok ++ bad :: rest) ->
  sinks_accept ms (current_epoch w) ok ->
  log_scalar_outcome ms (current_epoch w) bad = inl e ->
  _log_epoch_metrics ms w =
    (inl e,
     with_trace
       (fun t => t ++ map (log_event ms (current_epoch w)) ok
                   ++ log_scalar_calls ms (current_epoch w) bad) w).
Proof.
  intros Hls Hok Hbad. unfold _log_epoch_metrics. rewrite bind_gets, Hls.
  assert (Htruthy : truthy_opt_list (Some (map VLogger ok ++ bad :: rest)) = true).
  { destruct ok; reflexivity. }
  rewrite Htruthy.
  change (default [] (Some (map VLogger ok ++ bad :: rest)))
    with (map VLogger ok ++ bad :: rest).
  rewrite for_each_loggers_then by exact Hok.
  destruct w as [s h ep t]. unfold with_trace. simpl in *.
  change (for_each ?body (bad :: rest) ?w1)
    with ((body bad ≫= fun _ => for_each body rest) w1).
  unfold mbind at 1, M_bind at 1. rewrite bind_gets. simpl.
  destruct bad as [| name | o | l]; simpl in Hbad.
  - injection Hbad as <-. simpl. rewrite app_nil_r. reflexivity.
  - injection Hbad as <-. simpl. rewrite app_nil_r. reflexivity.
  - injection Hbad as <-. simpl. rewrite app_nil_r. reflexivity.
  - unfold call_log_scalar, emit, lift, modify, mbind, M_bind, with_trace.
    simpl. rewrite Hbad. unfold log_event. rewrite <- app_assoc. reflexivity.
Qed.

Lemma epoch_end_after_start (stage : string) (w : World) (k : gmap mkey loc -> M unit) :
  (d ← metrics_list_getitem stage; k d) (after (_init_metrics stage) w) =
    k (stage_entry stage w) (after (_init_metrics stage) w).
Proof.
  apply bind_ok, metrics_list_getitem_present.
  unfold after. rewrite init_metrics_run. destruct w as [s h e t].
  unfold with_self, with_heap, assign_metrics_list, stage_entry.
  cbn [self heap metrics_list metrics snd].
  rewrite metrics_key_stage_key. apply lookup_insert_eq.
Qed.

Lemma after_init_metrics_parts (stage : string) (w : World) :
  pl_loggers (self (after (_init_metrics stage) w)) = pl_loggers (self w) /\
  current_epoch (after (_init_metrics stage) w) = current_epoch w.
Proof.
  unfold after. rewrite init_metrics_run. destruct w as [s h e t]. auto.
Qed.

Lemma end_after_start_sinks (stage : string) (l : Logger) (ls : list Logger)
    (w : World) :
  pl_loggers (self w) = Some (map VLogger (l :: ls)) ->
  sinks_accept (stage_entry stage w) (current_epoch w) (l :: ls) ->
  (d ← metrics_list_getitem stage; _log_epoch_metrics d)
    (after (_init_metrics stage) w) =
    (inr tt,
     with_trace
       (fun t => t ++ map (log_event (stage_entry stage w) (current_epoch w))
                          (l :: ls))
       (after (_init_metrics stage) w)).
Proof.
  intros Hls Hok. rewrite epoch_end_after_start.
  destruct (after_init_metrics_parts stage w) as [Hls' Hep].
  rewrite <- Hep in Hok |- *.
  rewrite (log_epoch_metrics_sinks (stage_entry stage w) l ls).
  - reflexivity.
  - rewrite Hls'. exact Hls.
  - exact Hok.
Qed.

(** X6: with sink objects in [pl_loggers], an end hook that follows its
    start hook calls [log_scalar] once on every sink, in list order, each
    time with the dictionary the start hook built for the stage and the
    current epoch, and returns; nothing but the trace of calls changes. *)
Theorem epoch_end_forwards_to_sinks (l : Logger) (ls : list Logger)
    (outputs : list PyRet) (w : World) :
  pl_loggers (self w) = Some (map VLogger (l :: ls)) ->
  (sinks_accept (stage_entry "train" w) (current_epoch w) (l :: ls) ->
   training_epoch_end outputs (after on_train_start w) =
     (inr tt,
      with_trace
        (fun t => t ++ map (log_event (stage_entry "train" w) (current_epoch w))
                           (l :: ls))
        (after on_train_start w))) /\
  (sinks_accept (stage_entry "validation" w) (current_epoch w) (l :: ls) ->
   validation_epoch_end outputs (after on_validation_epoch_start w) =
     (inr tt,
      with_trace
        (fun t => t ++ map (log_event (stage_entry "validation" w)
                              (current_epoch w)) (l :: ls))
        (after on_validation_epoch_start w))) /\
  (sinks_accept (stage_entry "test" w) (current_epoch w) (l :: ls) ->
   test_epoch_end outputs (after on_test_epoch_start w) =
     (inr tt,
      with_trace
        (fun t => t ++ map (log_event (stage_entry "test" w) (current_epoch w))
                           (l :: ls))
        (after on_test_epoch_start w))).
Proof.
  intros Hls.
  split; [|split]; intros Hok.
  - apply (end_after_start_sinks "train" l ls w Hls Hok).
  - apply (end_after_start_sinks "validation" l ls w Hls Hok).
  - apply (end_after_start_sinks "test" l ls w Hls Hok).
Qed.

(** X7: with [pl_loggers] [None] or the empty list, an end hook that
    follows its start hook returns and changes nothing. *)
Theorem epoch_end_without_sinks (outputs : list PyRet) (w : World) :
  pl_loggers (self w) = None \/ pl_loggers (self w) = Some [] ->
  training_epoch_end outputs (after on_train_start w) =
    (inr tt, after on_train_start w) /\
  validation_epoch_end outputs (after on_validation_epoch_start w) =
    (inr tt, after on_validation_epoch_start w) /\
  test_epoch_end outputs (after on_test_epoch_start w) =
    (inr tt, after on_test_epoch_start w).
Proof.
  intros Hls.
  assert (Hstage : forall stage,
            (d ← metrics_list_getitem stage; _log_epoch_metrics d)
              (after (_init_metrics stage) w) =
              (inr tt, after (_init_metrics stage) w)).
  { intros stage. rewrite epoch_end_after_start.
    apply log_epoch_metrics_no_sink.
    destruct (after_init_metrics_parts stage w) as [-> _].
    destruct Hls as [-> | ->]; reflexivity. }
  split; [apply (Hstage "train")|].
  split; [apply (Hstage "validation") | apply (Hstage "test")].
Qed.

(** ** The scheduler *)

Lemma truthy_none_or_empty (v : pyval) :
  v = VNone \/ v = VStr "" -> truthy v = false.
Proof. intros [-> | ->]; reflexivity. Qed.

(** X8: what [configure_optimizers] does is decided by [self.scheduler].
    With [None] or the empty string it returns [self.optimizer], calls
    nothing and changes nothing.  With a scheduler object it calls the
    object's [set_optimizer] once with [self.optimizer]: when the call
    returns, whatever it returned becomes [self.scheduler] and the optimizer
    is returned; when it raises, the exception comes out and
    [self.scheduler] is still the object.  Nothing else changes. *)
Theorem configure_optimizers_outcomes (w : World) :
  let opt := optimizer (self w) in
  (scheduler (self w) = VNone \/ scheduler (self w) = VStr "" ->
   configure_optimizers w = (inr opt, w)) /\
  (forall o,
     scheduler (self w) = VScheduler o -> Scheduler_truthy o = true ->
     let w1 := with_trace (fun t => t ++ [EvSetOptimizer o opt]) w in
     (forall v, Scheduler_set_optimizer o opt = inr v ->
        configure_optimizers w = (inr opt, with_self (assign_scheduler v) w1)) /\
     (forall e, Scheduler_set_optimizer o opt = inl e ->
        configure_optimizers w = (inl e, w1) /\
        scheduler (self w1) = VScheduler o)).
Proof.
  intros opt. split.
  - intros Hs. apply configure_optimizers_falsy, truthy_none_or_empty, Hs.
  - intros o Hs Ht w1.
    pose proof (configure_optimizers_scheduler w o Hs Ht) as Hrun.
    cbv zeta in Hrun. fold opt in Hrun. fold w1 in Hrun.
    split.
    + intros v Hv. rewrite Hrun, Hv. reflexivity.
    + intros e He. rewrite Hrun, He. split; [reflexivity|].
      destruct w as [s h ep t]. exact Hs.
Qed.

(** X9: a scheduler whose [set_optimizer] returns [None] is lost:
    [configure_optimizers] stores the [None], and from then on
    [optimizer_step] runs the base class's step and steps no scheduler. *)
Theorem scheduler_dropped_by_none (w : World) (o : Scheduler) :
  scheduler (self w) = VScheduler o ->
  Scheduler_truthy o = true ->
  Scheduler_set_optimizer o (optimizer (self w)) = inr VNone ->
  let w1 := after configure_optimizers w in
  fst (configure_optimizers w) = inr (optimizer (self w)) /\
  scheduler (self w1) = VNone /\
  forall (args : call_args) (w2 : World),
    super_optimizer_step args w1 = (inr tt, w2) ->
    scheduler (self w2) = scheduler (self w1) ->
    optimizer_step args w1 = (inr tt, w2).
Proof.
  intros Hs Ht Hnone w1.
  pose proof (configure_optimizers_scheduler w o Hs Ht) as Hrun.
  cbv zeta in Hrun. rewrite Hnone in Hrun.
  assert (Hsched : scheduler (self w1) = VNone).
  { unfold w1, after. rewrite Hrun. destruct w as [s h ep t]. reflexivity. }
  split; [rewrite Hrun; reflexivity|]. split; [exact Hsched|].
  intros args w2 Hsuper Hsame.
  apply (optimizer_step_falsy args w1 w2 Hsuper).
  rewrite Hsame, Hsched. reflexivity.
Qed.

(** X10: [optimizer_step] runs the base class's step first.  When that
    raises, the same exception comes out and no scheduler is stepped.  When
    it returns, [self.scheduler] is read as the base step left it: a
    scheduler object gets exactly one [step()], and what [step()] returns or
    raises is the outcome; with [None] or the empty string nothing more
    happens. *)
Theorem optimizer_step_outcomes (args : call_args) (w w1 : World) :
  (forall e,
     super_optimizer_step args w = (inl e, w1) ->
     optimizer_step args w = (inl e, w1)) /\
  (super_optimizer_step args w = (inr tt, w1) ->
   (forall o,
      scheduler (self w1) = VScheduler o -> Scheduler_truthy o = true ->
      optimizer_step args w =
        (Scheduler_step o, with_trace (fun t => t ++ [EvSchedulerStep o]) w1)) /\
   (scheduler (self w1) = VNone \/ scheduler (self w1) = VStr "" ->
    optimizer_step args w = (inr tt, w1))).
Proof.
  split.
  - intros e Hsuper. apply (optimizer_step_super_raises args w w1 e Hsuper).
  - intros Hsuper. split.
    + intros o Hs Ht.
      apply (optimizer_step_scheduler args w w1 o Hsuper Hs Ht).
    + intros Hs. apply (optimizer_step_falsy args w w1 Hsuper).
      apply truthy_none_or_empty, Hs.
Qed.

(** ** [set_model] *)

(** X11: after [set_model m], [forward] calls [m]; the optimizer is still
    the one [__init__] built over the parameters of the model it constructed,
    and the loss, the scheduler, the sinks and the metrics are untouched:
    [set_model] swaps the model and rebuilds nothing. *)
Theorem set_model_swaps_only_the_model (a : init_args) (s : ModelFramework)
    (m : Model) (args : call_args) (w : World) :
  __init__ a = inr s ->
  self w = s ->
  let w1 := after (set_model m) w in
  set_model m w = (inr tt, w1) /\
  forward args w1 = Model_call m args w1 /\
  (exists (ocls : OptimizerCls) (ps : ParamIter),
     OptimizerChoice_get_choice (arg_optimizer a) = inr ocls /\
     Model_parameters (model s) = inr ps /\
     OptimizerCls_call ocls ps
       (OptimizerKwargs (FloatLit 1 (-4)) (FloatLit 9 (-1), FloatLit 98 (-2))
          (FloatLit 1 (-9))) = inr (optimizer (self w1))) /\
  loss (self w1) = loss s /\
  scheduler (self w1) = scheduler s /\
  pl_loggers (self w1) = pl_loggers s /\
  metrics_list (self w1) = metrics_list s /\
  heap w1 = heap w /\
  trace w1 = trace w.
Proof.
  intros Hinit Hself w1.
  destruct (init_inv a s Hinit) as [Hres _].
  destruct Hres as (cls & m0 & lcls & lfn & ocls & ps & _ & _ & _ & _ & _ & _
                    & Hocls & Hps & Hopt).
  subst s. destruct w as [s h ep t]. simpl in *.
  split; [reflexivity|]. split; [reflexivity|].
  split; [exists ocls, ps; auto|]. repeat split.
Qed.

(** ** [set_loop] *)

(** X14: [set_loop f] returns, with [f] in all three loop attributes and
    nothing else changed, when [f] is itself a module or none of the three
    attributes holds a module, as on a newly built object; it raises
    [TypeError] and changes nothing when [training_step_imported] holds a
    module and [f] is not one. *)
Theorem set_loop_outcomes (f : Callable) (w : World) :
  (Callable_is_module f = true \/
     (forall g,
        training_step_imported (self w) = Some g \/
        validation_step_imported (self w) = Some g \/
        test_step_imported (self w) = Some g ->
        Callable_is_module g = false) ->
   set_loop f w =
     (inr tt,
      with_self (fun s => assign_test_step_imported f
                            (assign_validation_step_imported f
                               (assign_training_step_imported f s))) w)) /\
  (forall g,
     training_step_imported (self w) = Some g ->
     Callable_is_module g = true ->
     Callable_is_module f = false ->
     set_loop f w = (inl (TypeError "training_step_imported"), w)).
Proof.
  split.
  - intros Hok.
    assert (Hany : forall (field : ModelFramework -> option Callable) w',
              (forall old, field (self w') = Some old ->
                 training_step_imported (self w) = Some old \/
                 validation_step_imported (self w) = Some old \/
                 test_step_imported (self w) = Some old) ->
              Callable_is_module f = true \/
              (forall old, field (self w') = Some old ->
                 Callable_is_module old = false)).
    { intros field w' Hsub. destruct Hok as [Hf | Hold]; [left; exact Hf|].
      right. intros old Hfield. apply Hold, Hsub, Hfield. }
    unfold set_loop.
    rewrite (bind_ok _ _ w (with_self (assign_training_step_imported f) w) tt).
    2: { apply setattr_loop_allowed, Hany. intros old Hfield. left.
         exact Hfield. }
    rewrite (bind_ok _ _ _
               (with_self (assign_validation_step_imported f)
                  (with_self (assign_training_step_imported f) w)) tt).
    2: { apply setattr_loop_allowed, Hany. intros old Hfield. right. left.
         destruct w as [s h e t]. exact Hfield. }
    rewrite setattr_loop_allowed.
    + destruct w as [s h e t]. reflexivity.
    + apply Hany. intros old Hfield. right. right.
      destruct w as [s h e t]. exact Hfield.
  - intros g Hg Hm Hf. unfold set_loop.
    apply bind_raise.
    apply (setattr_loop_refused _ _ _ f g w Hg Hm Hf).
Qed.

(** ** [__init__] *)

(** X13: with [initialize_model] [None] or the empty string the model kept
    is the one the model class returned; with any other method name it is
    what the parameter initialisation returned for that model. *)
Theorem init_initialize_model (a : init_args) (s : ModelFramework) :
  __init__ a = inr s ->
  exists (cls : ModelCls) (m0 : Model),
    ModelChoice_get_choice (arg_model a) = inr cls /\
    ModelCls_call cls (arg_model_args a) = inr m0 /\
    (arg_initialize_model a = None \/ arg_initialize_model a = Some "" ->
     model s = m0) /\
    (forall method,
       arg_initialize_model a = Some method -> method <> "" ->
       ParameterInitialization_initialize_model method m0 = inr (model s)).
Proof.
  intros Hinit. destruct (init_inv a s Hinit) as [Hres _].
  destruct Hres as (cls & m0 & lcls & lfn & ocls & ps & Hcls & Hm0 & Hm & _).
  exists cls, m0. split; [exact Hcls|]. split; [exact Hm0|]. split.
  - intros [Him | Him]; rewrite Him in Hm; simpl in Hm; congruence.
  - intros method Him Hne. rewrite Him in Hm. simpl in Hm.
    rewrite bool_decide_eq_true_2 in Hm by exact Hne. exact Hm.
Qed.

End MoreFacts.

(** ** Runs on the host with faults *)

Module MoreRuns.

#[local] Existing Instance Demo.host.
#[local] Existing Instance Faulty.ops.

Ltac not_made_of :=
  repeat (apply Forall_cons; split;
          [ let Hin := fresh "Hin" in
            intros Hin;
            repeat (apply elem_of_cons in Hin;
                    destruct Hin as [Hin | Hin]; [discriminate Hin|]);
            inversion Hin
          | ]);
  solve [constructor].

Example built_on_faulty_host : __init__ Demo.args = inr Demo.built.
Proof. reflexivity. Qed.

(** A wrong scheduler name and a wrong sink name pass construction. *)
Example typos_pass_construction :
  match __init__ Faulty.other_args with
  | inr s => scheduler s = VStr "typo" /\ pl_loggers s = Some [VStr "nowhere"]
  | inl _ => False
  end.
Proof. split; reflexivity. Qed.

Example xavier_initialises : __init__ Faulty.xavier_args = inr Faulty.xavier_built.
Proof. reflexivity. Qed.

(** The sink after the one that is down is never called. *)
Example broken_sinks_trace :
  length (trace (after (validation_epoch_end [])
                   (after on_validation_epoch_start Faulty.broken_sinks))) = 2.
Proof. vm_compute. reflexivity. Qed.

Lemma metrics_stay_well_formed_witness :
  __init__ Demo.args = inr Demo.built /\
  metrics_well_formed (run_calls Faulty.busy Demo.world).
Proof.
  split; [reflexivity|].
  exact (metrics_stay_well_formed Demo.args Demo.built Faulty.busy Demo.world
           eq_refl eq_refl).
Defined.

Lemma epoch_end_before_start_witness :
  __init__ Demo.args = inr Demo.built /\
  training_epoch_end [] (run_calls Faulty.no_train Demo.world) =
    (inl (KeyError "train"), run_calls Faulty.no_train Demo.world).
Proof.
  split; [reflexivity|].
  refine (proj1 (epoch_end_before_start Demo.args Demo.built Faulty.no_train
                   [] Demo.world eq_refl eq_refl) _).
  unfold Faulty.no_train. not_made_of.
Defined.

Lemma log_epoch_metrics_stops_at_failure_witness :
  _log_epoch_metrics ∅ Faulty.broken_sinks =
    (inl (Raised "sink down"),
     with_trace
       (fun t => t ++ map (log_event ∅ 5%Z) [Faulty.tb]
                   ++ log_scalar_calls ∅ 5%Z Faulty.down)
       Faulty.broken_sinks).
Proof.
  apply (log_epoch_metrics_stops_at_failure ∅ [Faulty.tb] Faulty.down
           [VLogger Faulty.csv] (Raised "sink down") Faulty.broken_sinks).
  - reflexivity.
  - repeat constructor.
  - reflexivity.
Defined.

Lemma epoch_end_forwards_to_sinks_witness :
  training_epoch_end [] (after on_train_start Faulty.good_sinks) =
    (inr tt,
     with_trace
       (fun t => t ++ map (log_event (stage_entry "train" Faulty.good_sinks) 5%Z)
                          [Faulty.tb; Faulty.csv])
       (after on_train_start Faulty.good_sinks)).
Proof.
  refine (proj1 (epoch_end_forwards_to_sinks Faulty.tb [Faulty.csv] []
                   Faulty.good_sinks eq_refl) _).
  repeat constructor.
Defined.

Lemma epoch_end_without_sinks_witness :
  validation_epoch_end []
      (after on_validation_epoch_start (Faulty.world_of VNone (Some []))) =
    (inr tt, after on_validation_epoch_start (Faulty.world_of VNone (Some []))).
Proof.
  refine (proj1 (proj2 (epoch_end_without_sinks []
                          (Faulty.world_of VNone (Some [])) _))).
  right. reflexivity.
Defined.

Lemma configure_optimizers_outcomes_witness :
  configure_optimizers (Faulty.world_of (VStr "") None) =
    (inr ("Adam", [7%Z]), Faulty.world_of (VStr "") None) /\
  configure_optimizers (Faulty.world_of (VScheduler 0) None) =
    (inl (Raised "no optimizer"),
     with_trace (fun t => t ++ [EvSetOptimizer 0 ("Adam", [7%Z])])
       (Faulty.world_of (VScheduler 0) None)) /\
  configure_optimizers (Faulty.world_of (VScheduler 3) None) =
    (inr ("Adam", [7%Z]),
     with_self (assign_scheduler (VScheduler 3))
       (with_trace (fun t => t ++ [EvSetOptimizer 3 ("Adam", [7%Z])])
          (Faulty.world_of (VScheduler 3) None))).
Proof.
  split; [|split].
  - exact (proj1 (configure_optimizers_outcomes
                    (Faulty.world_of (VStr "") None))
             (or_intror eq_refl)).
  - exact (proj1 (proj2 (proj2 (configure_optimizers_outcomes
                                  (Faulty.world_of (VScheduler 0) None))
                           0 eq_refl eq_refl)
                    (Raised "no optimizer") eq_refl)).
  - exact (proj1 (proj2 (configure_optimizers_outcomes
                           (Faulty.world_of (VScheduler 3) None))
                    3 eq_refl eq_refl)
             (VScheduler 3) eq_refl).
Defined.

Lemma scheduler_dropped_by_none_witness :
  scheduler (self (after configure_optimizers
                     (Faulty.world_of (VScheduler 1) None))) = VNone.
Proof.
  exact (proj1 (proj2 (scheduler_dropped_by_none
                         (Faulty.world_of (VScheduler 1) None) 1
                         eq_refl eq_refl eq_refl))).
Defined.

Lemma optimizer_step_outcomes_witness :
  optimizer_step Faulty.no_args (Faulty.world_of (VScheduler 2) None) =
    (inl (Raised "step failed"),
     with_trace (fun t => t ++ [EvSchedulerStep 2])
       (Faulty.world_of (VScheduler 2) None)) /\
  optimizer_step Faulty.one_arg (Faulty.world_of (VScheduler 3) None) =
    (inl (Raised "closure failed"), Faulty.world_of (VScheduler 3) None) /\
  optimizer_step Faulty.no_args (Faulty.world_of VNone None) =
    (inr tt, Faulty.world_of VNone None).
Proof.
  split; [|split].
  - exact (proj1 (proj2 (optimizer_step_outcomes Faulty.no_args
                           (Faulty.world_of (VScheduler 2) None)
                           (Faulty.world_of (VScheduler 2) None))
                    eq_refl)
             2 eq_refl eq_refl).
  - exact (proj1 (optimizer_step_outcomes Faulty.one_arg
                    (Faulty.world_of (VScheduler 3) None)
                    (Faulty.world_of (VScheduler 3) None))
             (Raised "closure failed") eq_refl).
  - exact (proj2 (proj2 (optimizer_step_outcomes Faulty.no_args
                           (Faulty.world_of VNone None)
                           (Faulty.world_of VNone None))
                    eq_refl)
             (or_introl eq_refl)).
Defined.

Lemma set_model_swaps_only_the_model_witness :
  __init__ Demo.args = inr Demo.built /\
  forward Faulty.one_arg (after (set_model Faulty.new_model) Demo.world) =
    Model_call Faulty.new_model Faulty.one_arg
      (after (set_model Faulty.new_model) Demo.world).
Proof.
  split; [reflexivity|].
  exact (proj1 (proj2 (set_model_swaps_only_the_model Demo.args Demo.built
                         Faulty.new_model Faulty.one_arg Demo.world
                         eq_refl eq_refl))).
Defined.

Lemma set_loop_outcomes_witness :
  set_loop Faulty.plain_loop (after (set_loop Faulty.module_loop) Demo.world) =
    (inl (TypeError "training_step_imported"),
     after (set_loop Faulty.module_loop) Demo.world) /\
  set_loop Faulty.module_loop (after (set_loop Faulty.plain_loop) Demo.world) =
    (inr tt,
     after (set_loop Faulty.module_loop)
       (after (set_loop Faulty.plain_loop) Demo.world)).
Proof.
  split.
  - exact (proj2 (set_loop_outcomes Faulty.plain_loop
                    (after (set_loop Faulty.module_loop) Demo.world))
             Faulty.module_loop eq_refl eq_refl eq_refl).
  - exact (proj1 (set_loop_outcomes Faulty.module_loop
                    (after (set_loop Faulty.plain_loop) Demo.world))
             (or_introl eq_refl)).
Defined.

(** [save_hyperparameters] fails on a scheduler it cannot copy, before any
    lookup. *)
Example init_uncopyable_scheduler :
  __init__ (InitArgs "gpt" 7%Z "ce_loss" "adam" None (VScheduler 9) None None) =
    inl (Raised "cannot copy the scheduler").
Proof. reflexivity. Qed.

Lemma init_initialize_model_witness :
  exists (cls : ModelCls) (m0 : Model),
    ModelChoice_get_choice (arg_model Faulty.xavier_args) = inr cls /\
    ModelCls_call cls (arg_model_args Faulty.xavier_args) = inr m0 /\
    (arg_initialize_model Faulty.xavier_args = None \/
     arg_initialize_model Faulty.xavier_args = Some "" ->
     model Faulty.xavier_built = m0) /\
    (forall method,
       arg_initialize_model Faulty.xavier_args = Some method -> method <> "" ->
       ParameterInitialization_initialize_model method m0 =
         inr (model Faulty.xavier_built)).
Proof.
  apply (init_initialize_model Faulty.xavier_args Faulty.xavier_built).
  reflexivity.
Defined.

End MoreRuns.
